(** * kq: job construction and the enqueue specification

    A shallow embedding of [kq/utils.py] and [kq/queue.py].

    Python values are a tagged union [PyVal]; the effects of [enqueue] (the
    clock, the random source behind [uuid.uuid4], the logger and the Kafka
    producer) are threaded through a [World]; a raised exception is the
    [Raise] outcome of the monad [M]. *)

From Stdlib Require Import ZArith NArith String Ascii SpecFloat OrderedTypeEx.
From stdpp Require Import base list sorting strings.

Local Open Scope Z_scope.
Local Open Scope string_scope.

(** ** Python values *)

(** Modelled from the spec: the Job record of [kq/job.py], which
    [kq/queue.py] imports: an immutable value with the fields
    [{id, timestamp, topic, func, args, kwargs, timeout, key, partition}],
    each of them absent ([None]) when left out. The docstring of [Queue]
    calls it a namedtuple. The record is parametric so that a job can itself
    be a Python value. *)
Module Job.
Record t (V : Type) : Type := mk {
  id : V;
  timestamp : V;
  topic : V;
  func : V;
  args : V;
  kwargs : V;
  timeout : V;
  key : V;
  partition : V
}.
Arguments mk {V}.
Arguments id {V}.
Arguments timestamp {V}.
Arguments topic {V}.
Arguments func {V}.
Arguments args {V}.
Arguments kwargs {V}.
Arguments timeout {V}.
Arguments key {V}.
Arguments partition {V}.
End Job.

(** What [inspect.isfunction], [inspect.ismethod] and [inspect.isbuiltin]
    tell apart. *)
Inductive FuncKind : Type := Function | Method | Builtin.

(** Any other object: the attributes the code looks at. An instance of a
    user class finds [__module__] on its class; a method descriptor such as
    [str.upper] is callable and has no [__module__] at all. *)
Record ObjInfo : Type := mkObj {
  obj_module : option (option string);
                                (* obj.__module__: None when the object has
                                   no such attribute, Some None when the
                                   attribute is None *)
  obj_class : string;           (* obj.__class__.__name__ *)
  obj_callable : bool;          (* the class defines __call__ *)
  obj_truthy : bool             (* bool(obj) *)
}.

#[warnings="-register-all"]
Inductive PyVal : Type :=
  | PNone
  | PBool (b : bool)
  | PInt (n : Z)
  | PFloat (x : spec_float)
  | PStr (s : string)                  (* UTF-8 bytes of a str *)
  | PBytes (b : list Byte.byte)
  | PList (l : list PyVal)
  | PTuple (l : list PyVal)
  | PDict (d : list (PyVal * PyVal))   (* items in insertion order *)
  | PFunc (k : FuncKind) (module : option string) (qualname : string)
  | PClass (module : option string) (name : string)
  | PObj (o : ObjInfo)
  | PProducer (bootstrap_servers : PyVal)   (* a kafka.KafkaProducer *)
  | PLogger (name : string)                 (* a logging.Logger *)
  | PJob (j : Job.t PyVal).

(** [x is None] *)
Definition is_None (x : PyVal) : bool :=
  match x with PNone => true | _ => false end.

(** Truth value of an object, as [or] and [if] test it. *)
Definition py_truthy (x : PyVal) : bool :=
  match x with
  | PNone => false
  | PBool b => b
  | PInt n => negb (n =? 0)%Z
  | PFloat (S754_zero _) => false
  | PFloat _ => true
  | PStr s => negb (String.eqb s "")
  | PBytes b => match b with [] => false | _ => true end
  | PList l | PTuple l => match l with [] => false | _ => true end
  | PDict d => match d with [] => false | _ => true end
  | PFunc _ _ _ | PClass _ _ => true
  | PObj o => obj_truthy o
  | PProducer _ | PLogger _ => true
  | PJob _ => true                      (* a tuple of nine fields *)
  end.

(** [dflt if x is None else x] *)
Definition unless_None (dflt x : PyVal) : PyVal :=
  if is_None x then dflt else x.

(** [a or b] *)
Definition py_or (a b : PyVal) : PyVal := if py_truthy a then a else b.

(** [callable(x)] *)
Definition callable (x : PyVal) : bool :=
  match x with
  | PFunc _ _ _ | PClass _ _ => true
  | PObj o => obj_callable o
  | _ => false
  end.

(** ** Exceptions *)

Inductive PyErr : Type :=
  | AssertionError (msg : string)
  | AttributeError (msg : string)
  | TypeError (msg : string)
  | Raised (what : string).       (* raised by a collaborator *)

Inductive Outcome (A : Type) : Type :=
  | Ok (a : A)
  | Raise (e : PyErr).
Arguments Ok {A}.
Arguments Raise {A}.

(** [g(x)], where evaluating [x] may raise *)
Definition Outcome_map {A B : Type} (g : A -> B) (o : Outcome A) : Outcome B :=
  match o with
  | Ok a => Ok (g a)
  | Raise e => Raise e
  end.

(** ** kq/utils.py: the shape predicates *)

Definition isinstance_int (obj : PyVal) : bool :=
  match obj with PInt _ | PBool _ => true | _ => false end.   (* bool <: int *)

Definition isinstance_float (obj : PyVal) : bool :=
  match obj with PFloat _ => true | _ => false end.

Definition isinstance_bytes (obj : PyVal) : bool :=
  match obj with PBytes _ => true | _ => false end.

Definition isinstance_Logger (obj : PyVal) : bool :=
  match obj with PLogger _ => true | _ => false end.

Definition isinstance_KafkaProducer (obj : PyVal) : bool :=
  match obj with PProducer _ => true | _ => false end.

Definition isinstance_Job (obj : PyVal) : bool :=
  match obj with PJob _ => true | _ => false end.

Definition is_none_or_logger (obj : PyVal) : bool :=
  is_None obj || isinstance_Logger obj.

Definition is_none_or_int (obj : PyVal) : bool :=
  is_None obj || isinstance_int obj.

Definition is_none_or_bytes (obj : PyVal) : bool :=
  is_None obj || isinstance_bytes obj.

Definition is_none_or_func (obj : PyVal) : bool :=
  is_None obj || callable obj.

Definition is_str (obj : PyVal) : bool :=
  match obj with PStr _ => true | _ => false end.

Definition is_number (obj : PyVal) : bool :=
  isinstance_int obj || isinstance_float obj.

Definition is_dict (obj : PyVal) : bool :=
  match obj with PDict _ => true | _ => false end.

(** [isinstance(obj, (list, tuple))]; a namedtuple such as a Job is a
    tuple. *)
Definition is_iter (obj : PyVal) : bool :=
  match obj with PList _ | PTuple _ | PJob _ => true | _ => false end.

(** ** kq/utils.py: get_call_repr *)

Definition ismethod (x : PyVal) : bool :=
  match x with PFunc Method _ _ => true | _ => false end.
Definition isfunction (x : PyVal) : bool :=
  match x with PFunc Function _ _ => true | _ => false end.
Definition isbuiltin (x : PyVal) : bool :=
  match x with PFunc Builtin _ _ => true | _ => false end.
Definition isclass (x : PyVal) : bool :=
  match x with PClass _ _ => true | _ => false end.

(** [hasattr(x, '__call__')] *)
Definition hasattr_call (x : PyVal) : bool := callable x.

(** [x.__module__]: functions, methods, builtins and classes carry the
    attribute (it is [None] for a builtin method such as [[].append]); an
    object carries it or not, and looking it up where it is missing
    raises. *)
Definition dunder_module (x : PyVal) : Outcome (option string) :=
  match x with
  | PFunc _ m _ | PClass m _ => Ok m
  | PObj o =>
      match obj_module o with
      | Some m => Ok m
      | None => Raise (AttributeError "__module__")
      end
  | _ => Raise (AttributeError "__module__")
  end.

(** [x.__qualname__] and [x.__class__.__name__], read only where the branch
    taken has made sure [x] carries them. *)
Definition dunder_qualname (x : PyVal) : string :=
  match x with
  | PFunc _ _ q | PClass _ q => q
  | _ => ""
  end.
Definition class_name (x : PyVal) : string :=
  match x with
  | PObj o => obj_class o
  | _ => ""
  end.

(** ['{}.{}'.format(m, n)], where [m] may be [None] *)
Definition format_dotted (m : option string) (n : string) : string :=
  default "None" m ++ "." ++ n.

(** The order [sorted] puts the items of a dict of keyword arguments in:
    tuples compare on their first component, and the keys of a dict differ
    pairwise, so that the values are never compared. Strings compare
    position by position; on the UTF-8 bytes this is the order of the code
    points. *)
Definition item_le (p q : string * PyVal) : Prop :=
  String.leb p.1 q.1 = true.

#[global] Instance item_le_dec (p q : string * PyVal) : Decision (item_le p q) :=
  bool_eq_dec (String.leb p.1 q.1) true.

Definition sorted_items (items : list (string * PyVal)) : list (string * PyVal) :=
  merge_sort item_le items.

Section Repr.

(** [repr(x)], a builtin *)
Variable py_repr : PyVal -> string.

(** [k + '=' + repr(v)] *)
Definition kwarg_repr (kv : string * PyVal) : string :=
  kv.1 ++ "=" ++ py_repr kv.2.

(** The first statement, which sets [func_repr] or raises. *)
Definition func_repr_of (func : PyVal) : Outcome string :=
  if ismethod func || isfunction func || isbuiltin func then
    Outcome_map (fun m => format_dotted m (dunder_qualname func))
                (dunder_module func)
  else if negb (isclass func) && hasattr_call func then
    Outcome_map (fun m => format_dotted m (class_name func))
                (dunder_module func)
  else Ok (py_repr func).

Definition get_call_repr (func : PyVal) (args : list PyVal)
    (kwargs : list (string * PyVal)) : Outcome string :=
  Outcome_map
    (fun func_repr =>
       let args_reprs := map py_repr args in
       let kwargs_reprs := map kwarg_repr (sorted_items kwargs) in
       func_repr ++ "(" ++ String.concat ", " (args_reprs ++ kwargs_reprs)%list
       ++ ")")
    (func_repr_of func).

End Repr.

(** ** The outside world and the monad of effects *)

(** What [KafkaProducer.send] is called with. [PNone] stands for a keyword
    that is passed as [None]. *)
Record Message : Type := mkMessage {
  msg_topic : PyVal;
  msg_value : PyVal;
  msg_key : PyVal;
  msg_partition : PyVal;
  msg_timestamp_ms : PyVal
}.

(** Every use of the producer handle leaves an event. *)
Inductive TransportEvent : Type :=
  | ConfigRead (name : string)    (* producer.config[name] *)
  | Send (m : Message).           (* producer.send(...) *)

Record World : Type := mkWorld {
  clock : nat -> Z;               (* n-th reading of int(time.time() * 1000) *)
  clock_reads : nat;
  entropy : nat -> N;             (* n-th draw of os.urandom(16), as a number *)
  entropy_draws : nat;
  log : list string;              (* records of logger.info, newest first *)
  transport : list TransportEvent (* newest first *)
}.

(** The four ways the code changes the world. *)
Definition tick (w : World) : World :=
  mkWorld (clock w) (S (clock_reads w)) (entropy w) (entropy_draws w)
          (log w) (transport w).
Definition drawn (w : World) : World :=
  mkWorld (clock w) (clock_reads w) (entropy w) (S (entropy_draws w))
          (log w) (transport w).
Definition logged (msg : string) (w : World) : World :=
  mkWorld (clock w) (clock_reads w) (entropy w) (entropy_draws w)
          (msg :: log w) (transport w).
Definition touched (ev : TransportEvent) (w : World) : World :=
  mkWorld (clock w) (clock_reads w) (entropy w) (entropy_draws w)
          (log w) (ev :: transport w).

Definition M (A : Type) : Type := World -> Outcome A * World.

#[global] Instance M_ret : MRet M := fun A a w => (Ok a, w).

#[global] Instance M_bind : MBind M := fun A B f m w =>
  match m w with
  | (Ok a, w') => f a w'
  | (Raise e, w') => (Raise e, w')
  end.

#[global] Instance M_fmap : FMap M := fun A B f m w =>
  match m w with
  | (Ok a, w') => (Ok (f a), w')
  | (Raise e, w') => (Raise e, w')
  end.

Definition raise {A : Type} (e : PyErr) : M A := fun w => (Raise e, w).

(** A pure computation that may raise, run inside [M]. *)
Definition lift {A : Type} (o : Outcome A) : M A := fun w => (o, w).

(** [assert cond, msg] *)
Definition assert_ (cond : bool) (msg : string) : M unit :=
  if cond then mret tt else raise (AssertionError msg).

(** [int(time.time() * 1000)] *)
Definition time_ms : M Z := fun w =>
  (Ok (clock w (clock_reads w)), tick w).

(** *** uuid.uuid4().hex *)

Definition hex_digit (d : N) : ascii :=
  match d with
  | 0 => "0" | 1 => "1" | 2 => "2" | 3 => "3" | 4 => "4" | 5 => "5"
  | 6 => "6" | 7 => "7" | 8 => "8" | 9 => "9" | 10 => "a" | 11 => "b"
  | 12 => "c" | 13 => "d" | 14 => "e" | _ => "f"
  end%N%char.

(** ['%0<width>x' % x] for [x < 16 ^ width] *)
Fixpoint hex_fixed (width : nat) (x : N) : string :=
  match width with
  | O => ""
  | S w => hex_fixed w (x / 16)%N ++ String (hex_digit (x mod 16)%N) ""
  end.

(** [UUID(bytes=os.urandom(16), version=4).int]: the variant and version
    bits are forced. *)
Definition uuid4_int (r : N) : N :=
  let i := (r mod 2 ^ 128)%N in
  let i := N.ldiff i (N.shiftl 0xc000 48) in
  let i := N.lor i (N.shiftl 0x8000 48) in
  let i := N.ldiff i (N.shiftl 0xf000 64) in
  N.lor i (N.shiftl 4 76).

Definition uuid4_hex_of (r : N) : string := hex_fixed 32 (uuid4_int r).

Definition uuid4_hex : M string := fun w =>
  (Ok (uuid4_hex_of (entropy w (entropy_draws w))), drawn w).

(** [logger.info(msg)] *)
Definition logger_info (logger : PyVal) (msg : string) : M unit :=
  match logger with
  | PLogger _ => fun w => (Ok tt, logged msg w)
  | _ => raise (AttributeError "info")
  end.

(** [producer.config[name]] of a KafkaProducer *)
Definition producer_config (producer : PyVal) (name : string) : M PyVal :=
  match producer with
  | PProducer servers => fun w => (Ok servers, touched (ConfigRead name) w)
  | _ => raise (AttributeError "config")
  end.

(** ** kq/queue.py *)

Module EnqueueSpec.
Record t : Type := mk {
  _topic : PyVal;
  _producer : PyVal;
  _serializer : PyVal;
  _logger : PyVal;
  _timeout : PyVal;
  _key : PyVal;
  _part : PyVal
}.
End EnqueueSpec.

Module Queue.
Record t : Type := mk {
  _topic : PyVal;
  _hosts : PyVal;
  _producer : PyVal;
  _serializer : PyVal;
  _timeout : PyVal;
  _logger : PyVal;
  _default_enqueue_spec : EnqueueSpec.t
}.
End Queue.

(** [dill.dumps] and [logging.getLogger(name)] *)
Definition dill_dumps : PyVal := PFunc Function (Some "dill._dill") "dumps".
Definition getLogger (name : string) : PyVal := PLogger name.

(** [x >= 0] on a number *)
Definition py_ge_zero (x : PyVal) : Outcome bool :=
  match x with
  | PInt n => Ok (0 <=? n)%Z
  | PBool _ => Ok true
  | PFloat f => Ok (SFleb (S754_zero false) f)
  | _ => Raise (TypeError ">= not supported")
  end.

(** The keyword arguments of a call, as the dict [**kwargs] binds them. *)
Definition kwargs_dict (kwargs : list (string * PyVal)) : PyVal :=
  PDict (map (fun kv => (PStr kv.1, kv.2)) kwargs).

(** [name in kwargs] *)
Definition has_keyword (name : string) (kwargs : list (string * PyVal)) : bool :=
  existsb (fun kv => String.eqb kv.1 name) kwargs.

Section Collaborators.

(** The code outside the repository that [enqueue] runs: calling a callable
    on one argument (the serializer: user code or [dill.dumps]), the text
    [str.format] gives for a value, and what the producer's [send] answers
    once it has taken a message. *)
Variable py_call : PyVal -> PyVal -> Outcome PyVal.
Variable py_str : PyVal -> string.
Variable kafka_send : Message -> Outcome unit.

(** [f(x)] *)
Definition call (f x : PyVal) : M PyVal :=
  if callable f then lift (py_call f x)
  else raise (TypeError "object is not callable").

(** [producer.send]: looking the method up, then calling it. *)
Definition producer_send (producer : PyVal) : M (Message -> M unit) :=
  match producer with
  | PProducer _ => mret (fun m w => (kafka_send m, touched (Send m) w))
  | _ => raise (AttributeError "send")
  end.

(** [EnqueueSpec.__init__] *)
Definition EnqueueSpec_init
    (topic producer serializer logger timeout key partition : PyVal)
    : M EnqueueSpec.t :=
  assert_ (is_number timeout) "timeout must be an int or float";;
  assert_ (is_none_or_bytes key) "key must be a bytes";;
  assert_ (is_none_or_int partition) "partition must be an int";;
  mret (EnqueueSpec.mk topic producer serializer logger timeout key partition).

(** [Queue.__init__] *)
Definition Queue_init (topic producer serializer timeout logger : PyVal)
    : M Queue.t :=
  assert_ (is_str topic) "topic must be a str";;
  assert_ (isinstance_KafkaProducer producer) "bad producer instance";;
  assert_ (is_none_or_func serializer) "serializer must be a callable";;
  assert_ (is_number timeout) "timeout must be an int or float";;
  nonneg ← lift (py_ge_zero timeout);
  assert_ nonneg "timeout must be 0 or greater";;
  assert_ (is_none_or_logger logger) "bad logger instance";;
  let _topic := topic in
  _hosts ← producer_config producer "bootstrap_servers";
  let _producer := producer in
  let _serializer := py_or serializer dill_dumps in
  let _timeout := timeout in
  let _logger := py_or logger (getLogger "kq.queue") in
  _default_enqueue_spec ←
    EnqueueSpec_init _topic _producer _serializer _logger _timeout PNone PNone;
  mret (Queue.mk _topic _hosts _producer _serializer _timeout _logger
                 _default_enqueue_spec).

(** [EnqueueSpec.enqueue(obj, *args, **kwargs)]; [args] and [kwargs] are
    what Python binds to [*args] and [**kwargs]. *)
Definition EnqueueSpec_enqueue (self : EnqueueSpec.t) (obj : PyVal)
    (args : list PyVal) (kwargs : list (string * PyVal)) : M (Job.t PyVal) :=
  timestamp ← time_ms;
  '(job_id, func, args, kwargs, timeout, key, partition) ←
    match obj with
    | PJob obj =>
        job_id ← (if is_None (Job.id obj) then PStr <$> uuid4_hex
                  else mret (Job.id obj));
        let func := Job.func obj in
        let args := unless_None (PTuple []) (Job.args obj) in
        let kwargs := unless_None (PDict []) (Job.kwargs obj) in
        let timeout := unless_None (EnqueueSpec._timeout self) (Job.timeout obj) in
        let key := unless_None (EnqueueSpec._key self) (Job.key obj) in
        let partition := unless_None (EnqueueSpec._part self) (Job.partition obj) in
        assert_ (is_str job_id) "Job.id must be a str";;
        assert_ (callable func) "Job.func must be a callable";;
        assert_ (is_iter args) "Job.args must be a list or tuple";;
        assert_ (is_dict kwargs) "Job.kwargs must be a dict";;
        assert_ (is_number timeout) "Job.timeout must be an int or float";;
        assert_ (is_none_or_bytes key) "Job.key must be a bytes";;
        assert_ (is_none_or_int partition) "Job.partition must be an int";;
        mret (job_id, func, args, kwargs, timeout, key, partition)
    | _ =>
        assert_ (callable obj) "first argument must be a callable";;
        job_id ← PStr <$> uuid4_hex;
        mret (job_id, obj, PTuple args, kwargs_dict kwargs,
              EnqueueSpec._timeout self, EnqueueSpec._key self,
              EnqueueSpec._part self)
    end;
  let job := Job.mk job_id (PInt timestamp) (EnqueueSpec._topic self)
                    func args kwargs timeout key partition in
  logger_info (EnqueueSpec._logger self)
              ("Enqueueing " ++ py_str (PJob job) ++ " ...");;
  send ← producer_send (EnqueueSpec._producer self);
  value ← call (EnqueueSpec._serializer self) (PJob job);
  wire_key ← (if py_truthy key then call (EnqueueSpec._serializer self) key
              else mret PNone);
  send (mkMessage (EnqueueSpec._topic self) value wire_key partition
                  (PInt timestamp));;
  mret job.

(** [Queue.enqueue(func, *args, **kwargs)]: the one statement
    [return self._default_enqueue_spec.enqueue(func, *args, **kwargs)].
    [func] goes to the parameter [obj] of [EnqueueSpec.enqueue], so when
    [kwargs] holds the key ['obj'] as well the call raises as it binds its
    arguments, before the body of [EnqueueSpec.enqueue] is entered. The keys
    ['self'] and ['func'] name parameters of [Queue.enqueue] itself and are
    never in its [kwargs]. *)
Definition Queue_enqueue (self : Queue.t) (func : PyVal)
    (args : list PyVal) (kwargs : list (string * PyVal)) : M (Job.t PyVal) :=
  if has_keyword "obj" kwargs then
    raise (TypeError "enqueue() got multiple values for argument 'obj'")
  else
    EnqueueSpec_enqueue (Queue._default_enqueue_spec self) func args kwargs.

(** [Queue.using(timeout=None, key=None, partition=None)] *)
Definition Queue_using (self : Queue.t) (timeout key partition : PyVal)
    : M EnqueueSpec.t :=
  EnqueueSpec_init (Queue._topic self) (Queue._producer self)
                   (Queue._serializer self) (Queue._logger self)
                   (py_or timeout (Queue._timeout self)) key partition.

End Collaborators.

(** ** A concrete setting to run the code in *)

(** A serializer that wraps its argument, a transport that takes every
    message, and a world whose clock stands at 1700000000000 ms. *)
Definition demo_call (f x : PyVal) : Outcome PyVal := Ok (PTuple [f; x]).
Definition demo_str (x : PyVal) : string := "<job>".
Definition demo_send (m : Message) : Outcome unit := Ok tt.
Definition demo_repr (v : PyVal) : string :=
  match v with
  | PInt 1 => "1"
  | PInt 2 => "2"
  | PStr s => "'" ++ s ++ "'"
  | _ => "..."
  end.
Definition demo_world : World :=
  mkWorld (fun _ => 1700000000000) 0
          (fun _ => 0x0123456789abcdef0123456789abcdef%N) 0
          [] [].
Definition demo_producer : PyVal := PProducer (PStr "127.0.0.1:9092").
Definition demo_func : PyVal := PFunc Function (Some "requests.api") "get".

(** [str.upper], a method descriptor: callable, neither function, method,
    builtin nor class, and without [__module__]. *)
Definition demo_str_upper : PyVal :=
  PObj (mkObj None "method_descriptor" true true).

(** An [EnqueueSpec] with [timeout=10, key=b'k', partition=3] on topic
    ['t']. *)
Definition demo_spec : EnqueueSpec.t :=
  EnqueueSpec.mk (PStr "t") demo_producer dill_dumps (getLogger "kq.queue")
                 (PInt 10) (PBytes [Byte.x6b]) (PInt 3).

(** [Queue(topic='t', producer=producer, timeout=10)], as [Queue.__init__]
    builds it. *)
Definition demo_queue : Queue.t :=
  Queue.mk (PStr "t") (PStr "127.0.0.1:9092") demo_producer dill_dumps
           (PInt 10) (getLogger "kq.queue")
           (EnqueueSpec.mk (PStr "t") demo_producer dill_dumps
                           (getLogger "kq.queue") (PInt 10) PNone PNone).

(** [Job(func=requests.get, timeout=5)], [Job(func=requests.get, key=b'')],
    [Job(id='', func=requests.get)] and [Job(func=3)] *)
Definition demo_job_timeout : Job.t PyVal :=
  Job.mk PNone PNone PNone demo_func PNone PNone (PInt 5) PNone PNone.
Definition demo_job_empty_key : Job.t PyVal :=
  Job.mk PNone PNone PNone demo_func PNone PNone PNone (PBytes []) PNone.
Definition demo_job_empty_id : Job.t PyVal :=
  Job.mk (PStr "") PNone PNone demo_func PNone PNone PNone PNone PNone.
Definition demo_job_bad_func : Job.t PyVal :=
  Job.mk PNone PNone PNone (PInt 3) PNone PNone PNone PNone PNone.

(** [Job(func=requests.get)], [Job(func=requests.get, timeout=0)],
    [Job(id='7', func=requests.get)] and
    [Job(func=requests.get, args=['url'], kwargs={'allow': 1})] *)
Definition demo_job_plain : Job.t PyVal :=
  Job.mk PNone PNone PNone demo_func PNone PNone PNone PNone PNone.
Definition demo_job_zero_timeout : Job.t PyVal :=
  Job.mk PNone PNone PNone demo_func PNone PNone (PInt 0) PNone PNone.
Definition demo_job_with_id : Job.t PyVal :=
  Job.mk (PStr "7") PNone PNone demo_func PNone PNone PNone PNone PNone.
Definition demo_job_args : Job.t PyVal :=
  Job.mk PNone PNone PNone demo_func (PList [PStr "url"])
         (PDict [(PStr "allow", PInt 1)]) PNone PNone PNone.

(** A job that was enqueued before, elsewhere:
    [Job(id='7', timestamp=1, topic='other', func=requests.get)] *)
Definition demo_job_stale : Job.t PyVal :=
  Job.mk (PStr "7") (PInt 1) (PStr "other") demo_func PNone PNone PNone PNone
         PNone.

(** A serializer and a transport that raise. *)
Definition demo_call_fail (f x : PyVal) : Outcome PyVal :=
  Raise (Raised "PicklingError").
Definition demo_send_fail (m : Message) : Outcome unit :=
  Raise (Raised "KafkaTimeoutError").

(** The spec [using(timeout=30, key=b'k', partition=1)] gives on the queue
    above. *)
Definition demo_using_spec : EnqueueSpec.t :=
  EnqueueSpec.mk (PStr "t") demo_producer dill_dumps (getLogger "kq.queue")
                 (PInt 30) (PBytes [Byte.x6b]) (PInt 1).

(** ** kq/queue.py: the read-only properties and [__repr__] of a Queue *)

Definition Queue_hosts (self : Queue.t) : PyVal := Queue._hosts self.
Definition Queue_topic (self : Queue.t) : PyVal := Queue._topic self.
Definition Queue_producer (self : Queue.t) : PyVal := Queue._producer self.
Definition Queue_serializer (self : Queue.t) : PyVal := Queue._serializer self.
Definition Queue_timeout (self : Queue.t) : PyVal := Queue._timeout self.

(** ['Queue(hosts={}, topic={})'.format(self._hosts, self._topic)], with the
    text [str.format] gives for a value as a parameter. *)
Definition Queue_repr (py_str : PyVal -> string) (self : Queue.t) : string :=
  "Queue(hosts=" ++ py_str (Queue._hosts self) ++ ", topic="
  ++ py_str (Queue._topic self) ++ ")".

(** ** Vocabulary of the statements *)

(** What was handed to the transport by a run that returned: one message,
    made of the returned job. *)
Definition delivered (py_call : PyVal -> PyVal -> Outcome PyVal)
    (kafka_send : Message -> Outcome unit)
    (self : EnqueueSpec.t) (r : Job.t PyVal) (w w' : World) : Prop :=
  exists value wire_key,
    py_call (EnqueueSpec._serializer self) (PJob r) = Ok value /\
    (if py_truthy (Job.key r)
     then py_call (EnqueueSpec._serializer self) (Job.key r) = Ok wire_key
     else wire_key = PNone) /\
    let m := mkMessage (EnqueueSpec._topic self) value wire_key
                       (Job.partition r) (Job.timestamp r) in
    kafka_send m = Ok tt /\ transport w' = Send m :: transport w.

(** The precedence of a field: the job's own value when it is set, the
    bound value when it is absent. *)
Definition takes_precedence (own bound result : PyVal) : Prop :=
  (own <> PNone -> result = own) /\ (own = PNone -> result = bound).

(** Strictly ascending order of the keys of two items. *)
Definition key_lt (p q : string * PyVal) : Prop := String.ltb p.1 q.1 = true.

(** The specs a queue hands out: its default one and those of [using]. *)
Definition spec_of (q : Queue.t) (self : EnqueueSpec.t) : Prop :=
  self = Queue._default_enqueue_spec q \/
  exists timeout key partition w w',
    Queue_using q timeout key partition w = (Ok self, w').

(** A run that stops on a failed assertion before the producer is used. *)
Definition refused {A : Type} (run : Outcome A * World) (w : World) : Prop :=
  exists msg, run.1 = Raise (AssertionError msg) /\
              transport run.2 = transport w.

(** The inputs [enqueue] is to refuse: a first argument that is neither a
    job nor callable, or a job one of whose fields, once the absent ones are
    defaulted, has the wrong shape. *)
Definition malformed (self : EnqueueSpec.t) (obj : PyVal) : Prop :=
  match obj with
  | PJob j =>
      is_None (Job.id j) || is_str (Job.id j) = false \/
      callable (Job.func j) = false \/
      is_iter (unless_None (PTuple []) (Job.args j)) = false \/
      is_dict (unless_None (PDict []) (Job.kwargs j)) = false \/
      is_number (unless_None (EnqueueSpec._timeout self) (Job.timeout j))
        = false \/
      is_none_or_bytes (unless_None (EnqueueSpec._key self) (Job.key j))
        = false \/
      is_none_or_int (unless_None (EnqueueSpec._part self) (Job.partition j))
        = false
  | _ => callable obj = false
  end.

(** The arguments [Queue.__init__] lets through. *)
Definition Queue_args_ok (topic producer serializer timeout logger : PyVal)
    : bool :=
  is_str topic && isinstance_KafkaProducer producer &&
  is_none_or_func serializer && is_number timeout &&
  match py_ge_zero timeout with Ok b => b | Raise _ => false end &&
  is_none_or_logger logger.

(** A spec every field of which has the shape [enqueue] relies on. *)
Definition well_formed_spec (self : EnqueueSpec.t) : Prop :=
  is_str (EnqueueSpec._topic self) = true /\
  isinstance_KafkaProducer (EnqueueSpec._producer self) = true /\
  callable (EnqueueSpec._serializer self) = true /\
  isinstance_Logger (EnqueueSpec._logger self) = true /\
  is_number (EnqueueSpec._timeout self) = true /\
  is_none_or_bytes (EnqueueSpec._key self) = true /\
  is_none_or_int (EnqueueSpec._part self) = true.

(** A job every field of which is populated with the right shape. *)
Definition well_formed_job (r : Job.t PyVal) : Prop :=
  is_str (Job.id r) = true /\ isinstance_int (Job.timestamp r) = true /\
  is_str (Job.topic r) = true /\ callable (Job.func r) = true /\
  is_iter (Job.args r) = true /\ is_dict (Job.kwargs r) = true /\
  is_number (Job.timeout r) = true /\ is_none_or_bytes (Job.key r) = true /\
  is_none_or_int (Job.partition r) = true.

(** The job [enqueue] builds from its input in a world, when the checks
    pass. *)
Definition normalized (self : EnqueueSpec.t) (obj : PyVal)
    (args : list PyVal) (kwargs : list (string * PyVal)) (w : World)
    : Job.t PyVal :=
  let fresh := PStr (uuid4_hex_of (entropy w (entropy_draws w))) in
  let now := PInt (clock w (clock_reads w)) in
  match obj with
  | PJob j =>
      Job.mk (if is_None (Job.id j) then fresh else Job.id j) now
             (EnqueueSpec._topic self) (Job.func j)
             (unless_None (PTuple []) (Job.args j))
             (unless_None (PDict []) (Job.kwargs j))
             (unless_None (EnqueueSpec._timeout self) (Job.timeout j))
             (unless_None (EnqueueSpec._key self) (Job.key j))
             (unless_None (EnqueueSpec._part self) (Job.partition j))
  | _ =>
      Job.mk fresh now (EnqueueSpec._topic self) obj (PTuple args)
             (kwargs_dict kwargs) (EnqueueSpec._timeout self)
             (EnqueueSpec._key self) (EnqueueSpec._part self)
  end.

(** The world after the clock was read and, where the input brings no id,
    the random source was drawn from. *)
Definition stamped (obj : PyVal) (w : World) : World :=
  match obj with
  | PJob j => if is_None (Job.id j) then drawn (tick w) else tick w
  | _ => drawn (tick w)
  end.

(** The record [enqueue] logs for a job. *)
Definition enqueueing (py_str : PyVal -> string) (r : Job.t PyVal) : string :=
  "Enqueueing " ++ py_str (PJob r) ++ " ...".

(** A run that has used the producer at most once, for a [send]. *)
Definition sent_at_most_once {A : Type} (run : Outcome A * World) (w : World)
    : Prop :=
  transport run.2 = transport w \/
  exists m, transport run.2 = Send m :: transport w.

(** The end of [enqueue], from the log record on, for the job built. *)
Definition hand_over (py_call : PyVal -> PyVal -> Outcome PyVal)
    (py_str : PyVal -> string) (kafka_send : Message -> Outcome unit)
    (self : EnqueueSpec.t) (job : Job.t PyVal) : M (Job.t PyVal) :=
  logger_info (EnqueueSpec._logger self) (enqueueing py_str job);;
  send ← producer_send kafka_send (EnqueueSpec._producer self);
  value ← call py_call (EnqueueSpec._serializer self) (PJob job);
  wire_key ← (if py_truthy (Job.key job)
              then call py_call (EnqueueSpec._serializer self) (Job.key job)
              else mret PNone);
  send (mkMessage (EnqueueSpec._topic self) value wire_key
                  (Job.partition job) (Job.timestamp job));;
  mret job.

(** * Properties *)

(** ** Inversion of a run that returns *)

Lemma bind_Ok {A B : Type} (m : M A) (f : A -> M B) w r w' :
  (m ≫= f) w = (Ok r, w') ->
  exists a w1, m w = (Ok a, w1) /\ f a w1 = (Ok r, w').
Proof.
  unfold mbind, M_bind. destruct (m w) as [[a|e] w1]; [eauto | discriminate].
Qed.

Lemma fmap_Ok {A B : Type} (g : A -> B) (m : M A) w r w' :
  (g <$> m) w = (Ok r, w') ->
  exists a, m w = (Ok a, w') /\ r = g a.
Proof.
  unfold fmap, M_fmap. destruct (m w) as [[a|e] w1]; [|discriminate].
  intros [= <- <-]. eauto.
Qed.

Lemma ret_Ok {A : Type} (a : A) w r w' :
  mret (M:=M) a w = (Ok r, w') -> r = a /\ w' = w.
Proof. by intros [= <- <-]. Qed.

Lemma assert_Ok cond msg w u w' :
  assert_ cond msg w = (Ok u, w') -> cond = true /\ w' = w.
Proof. destruct cond; [by intros [= <- <-] | discriminate]. Qed.

Lemma lift_Ok {A : Type} (o : Outcome A) w a w' :
  lift o w = (Ok a, w') -> o = Ok a /\ w' = w.
Proof. by intros [= -> <-]. Qed.

Lemma time_ms_Ok w a w' :
  time_ms w = (Ok a, w') -> a = clock w (clock_reads w) /\ w' = tick w.
Proof. by intros [= <- <-]. Qed.

Lemma uuid4_hex_Ok w a w' :
  uuid4_hex w = (Ok a, w') ->
  a = uuid4_hex_of (entropy w (entropy_draws w)) /\ w' = drawn w.
Proof. by intros [= <- <-]. Qed.

Lemma logger_info_Ok logger msg w u w' :
  logger_info logger msg w = (Ok u, w') ->
  isinstance_Logger logger = true /\ w' = logged msg w.
Proof. destruct logger; try discriminate. by intros [= <- <-]. Qed.

Lemma producer_config_Ok producer name w v w' :
  producer_config producer name w = (Ok v, w') ->
  producer = PProducer v /\ w' = touched (ConfigRead name) w.
Proof. destruct producer; try discriminate. by intros [= <- <-]. Qed.

Lemma call_Ok py_call f x w v w' :
  call py_call f x w = (Ok v, w') ->
  callable f = true /\ py_call f x = Ok v /\ w' = w.
Proof.
  unfold call. destruct (callable f); [|discriminate].
  by intros [= -> <-].
Qed.

Lemma producer_send_Ok kafka_send producer w (send : Message -> M unit) w' :
  producer_send kafka_send producer w = (Ok send, w') ->
  isinstance_KafkaProducer producer = true /\ w' = w /\
  send = fun m w => (kafka_send m, touched (Send m) w).
Proof. destruct producer; try discriminate. by intros [= <- <-]. Qed.

Ltac inv_run H :=
  lazymatch type of H with
  | (_ ≫= _) _ = (Ok _, _) =>
      let a := fresh "a" in
      let w := fresh "w" in
      let E := fresh "E" in
      apply bind_Ok in H as (a & w & E & H); inv_run E; inv_run H
  | (_ <$> _) _ = (Ok _, _) =>
      let a := fresh "a" in
      let E := fresh "E" in
      apply fmap_Ok in H as (a & E & ->); inv_run E
  | mret _ _ = (Ok _, _) => apply ret_Ok in H as [? ?]; subst
  | assert_ _ _ _ = (Ok _, _) => apply assert_Ok in H as [? ?]; subst
  | lift _ _ = (Ok _, _) => apply lift_Ok in H as [? ?]; subst
  | time_ms _ = (Ok _, _) => apply time_ms_Ok in H as [? ?]; subst
  | uuid4_hex _ = (Ok _, _) => apply uuid4_hex_Ok in H as [? ?]; subst
  | logger_info _ _ _ = (Ok _, _) => apply logger_info_Ok in H as [? ?]; subst
  | producer_config _ _ _ = (Ok _, _) =>
      apply producer_config_Ok in H as [? ?]; subst
  | call _ _ _ _ = (Ok _, _) => apply call_Ok in H as (? & ? & ?); subst
  | producer_send _ _ _ = (Ok _, _) =>
      apply producer_send_Ok in H as (? & ? & ?); subst
  | (if ?b then _ else _) _ = (Ok _, _) => destruct b eqn:?; inv_run H
  | _ => idtac
  end.

(** ** Running forward *)

Lemma bind_run {A B : Type} (m : M A) (f : A -> M B) w a w1 :
  m w = (Ok a, w1) -> (m ≫= f) w = f a w1.
Proof. unfold mbind, M_bind. by intros ->. Qed.

Lemma assert_run cond msg w : cond = true -> assert_ cond msg w = (Ok tt, w).
Proof. by intros ->. Qed.

(** ** Runs that stop on an assertion *)

Lemma refused_bind {A B : Type} (m : M A) (f : A -> M B) w0 w :
  refused (m w0) w -> refused ((m ≫= f) w0) w.
Proof.
  unfold refused, mbind, M_bind. intros (msg & Hm & Hw).
  destruct (m w0) as [[a|e] w1]; simplify_eq/=. by exists msg.
Qed.

Lemma refused_bind_Ok {A B : Type} (m : M A) (f : A -> M B) w0 a w1 w :
  m w0 = (Ok a, w1) -> refused (f a w1) w -> refused ((m ≫= f) w0) w.
Proof. unfold mbind, M_bind. by intros ->. Qed.

Lemma refused_assert_false {A : Type} msg (k : unit -> M A) w0 w :
  transport w0 = transport w -> refused ((assert_ false msg ≫= k) w0) w.
Proof. intros Hw. by exists msg. Qed.

Lemma refused_assert_true {A : Type} msg (k : unit -> M A) w0 w :
  refused (k tt w0) w -> refused ((assert_ true msg ≫= k) w0) w.
Proof. done. Qed.

(** The next assertion of a chain either fails, which ends the run, or
    holds and is recorded. *)
Ltac check_next :=
  lazymatch goal with
  | |- refused ((assert_ ?b _ ≫= _) _) _ =>
      destruct b eqn:?;
      [apply refused_assert_true | by apply refused_assert_false]
  end.

(** ** The constructors *)

Lemma EnqueueSpec_init_Ok topic producer serializer logger timeout key
    partition w self w' :
  EnqueueSpec_init topic producer serializer logger timeout key partition w
    = (Ok self, w') ->
  is_number timeout = true /\ is_none_or_bytes key = true /\
  is_none_or_int partition = true /\
  self = EnqueueSpec.mk topic producer serializer logger timeout key partition /\
  w' = w.
Proof. intros H. unfold EnqueueSpec_init in H. by inv_run H. Qed.

Lemma Queue_init_Ok topic producer serializer timeout logger w q w' :
  Queue_init topic producer serializer timeout logger w = (Ok q, w') ->
  is_str topic = true /\ is_none_or_func serializer = true /\
  is_number timeout = true /\ py_ge_zero timeout = Ok true /\
  is_none_or_logger logger = true /\
  exists hosts,
    producer = PProducer hosts /\
    q = Queue.mk topic hosts producer (py_or serializer dill_dumps) timeout
          (py_or logger (getLogger "kq.queue"))
          (EnqueueSpec.mk topic producer (py_or serializer dill_dumps)
             (py_or logger (getLogger "kq.queue")) timeout PNone PNone) /\
    w' = touched (ConfigRead "bootstrap_servers") w.
Proof.
  intros H. unfold Queue_init, EnqueueSpec_init in H. inv_run H.
  repeat split; try done. by eexists.
Qed.

(** What [using] binds: the timeout is [timeout or self._timeout]. *)
Lemma Queue_using_Ok q timeout key partition w self w' :
  Queue_using q timeout key partition w = (Ok self, w') ->
  self = EnqueueSpec.mk (Queue._topic q) (Queue._producer q)
           (Queue._serializer q) (Queue._logger q)
           (py_or timeout (Queue._timeout q)) key partition /\
  w' = w.
Proof. intros H. by apply EnqueueSpec_init_Ok in H as (_ & _ & _ & -> & ->). Qed.

(** Every spec of a queue carries the topic of the queue, a string. *)
Lemma spec_of_topic topic producer serializer timeout logger w q w' self :
  Queue_init topic producer serializer timeout logger w = (Ok q, w') ->
  spec_of q self ->
  EnqueueSpec._topic self = topic /\ exists t, topic = PStr t.
Proof.
  intros Hq Hself.
  apply Queue_init_Ok in Hq as (Htopic & _ & _ & _ & _ & hosts & _ & -> & _).
  split; [|destruct topic; try discriminate; by eexists].
  destruct Hself as [->|(t & k & p & wa & wb & Hu)]; [done|].
  by apply Queue_using_Ok in Hu as [-> _].
Qed.

(** ** The identifier *)

Lemma length_append (s1 s2 : string) :
  String.length (s1 ++ s2) = (String.length s1 + String.length s2)%nat.
Proof. induction s1 as [|c s1 IH]; simpl; [done | by rewrite IH]. Qed.

Lemma hex_fixed_length width x : String.length (hex_fixed width x) = width.
Proof.
  revert x. induction width as [|n IH]; intros x; simpl; [done|].
  rewrite length_append, IH. simpl. lia.
Qed.

Lemma uuid4_hex_of_length r : String.length (uuid4_hex_of r) = 32%nat.
Proof. apply hex_fixed_length. Qed.

(** The call of the bound [send] that ends a run. *)
Ltac inv_send :=
  match goal with
  | E : (_, touched _ _) = (Ok ?u, _) |- _ => injection E as ? <-; destruct u
  end.

Section EnqueueFacts.

Variable py_call : PyVal -> PyVal -> Outcome PyVal.
Variable py_str : PyVal -> string.
Variable kafka_send : Message -> Outcome unit.

Abbreviation delivered := (delivered py_call kafka_send).

(** The job path: what a run that returns has checked, built and sent. *)
Lemma enqueue_job_Ok self j args kwargs w r w' :
  EnqueueSpec_enqueue py_call py_str kafka_send self (PJob j) args kwargs w
    = (Ok r, w') ->
  r = Job.mk (if is_None (Job.id j)
              then PStr (uuid4_hex_of (entropy w (entropy_draws w)))
              else Job.id j)
             (PInt (clock w (clock_reads w)))
             (EnqueueSpec._topic self)
             (Job.func j)
             (unless_None (PTuple []) (Job.args j))
             (unless_None (PDict []) (Job.kwargs j))
             (unless_None (EnqueueSpec._timeout self) (Job.timeout j))
             (unless_None (EnqueueSpec._key self) (Job.key j))
             (unless_None (EnqueueSpec._part self) (Job.partition j)) /\
  (is_str (Job.id r) = true /\ callable (Job.func r) = true /\
   is_iter (Job.args r) = true /\ is_dict (Job.kwargs r) = true /\
   is_number (Job.timeout r) = true /\ is_none_or_bytes (Job.key r) = true /\
   is_none_or_int (Job.partition r) = true) /\
  entropy_draws w' =
    (if is_None (Job.id j) then S (entropy_draws w) else entropy_draws w) /\
  delivered self r w w'.
Proof.
  intros H. unfold EnqueueSpec_enqueue in H. inv_run H.
  all: inv_send.
  all: repeat split; try done.
  all: eexists _, _; simpl; rewrite ?Heqb0; eauto.
Qed.

(** The raw-callable path. *)
Lemma enqueue_call_Ok self obj args kwargs w r w' :
  isinstance_Job obj = false ->
  EnqueueSpec_enqueue py_call py_str kafka_send self obj args kwargs w
    = (Ok r, w') ->
  callable obj = true /\
  r = Job.mk (PStr (uuid4_hex_of (entropy w (entropy_draws w))))
             (PInt (clock w (clock_reads w)))
             (EnqueueSpec._topic self)
             obj (PTuple args) (kwargs_dict kwargs)
             (EnqueueSpec._timeout self) (EnqueueSpec._key self)
             (EnqueueSpec._part self) /\
  entropy_draws w' = S (entropy_draws w) /\
  delivered self r w w'.
Proof.
  intros Hobj H. unfold EnqueueSpec_enqueue in H.
  destruct obj; try discriminate Hobj; inv_run H.
  all: inv_send.
  all: repeat split; try done.
  all: eexists _, _; simpl; rewrite ?Heqb; eauto.
Qed.

(** Both paths: what every returned job satisfies. *)
Lemma enqueue_Ok self obj args kwargs w r w' :
  EnqueueSpec_enqueue py_call py_str kafka_send self obj args kwargs w
    = (Ok r, w') ->
  Job.timestamp r = PInt (clock w (clock_reads w)) /\
  Job.topic r = EnqueueSpec._topic self /\
  is_str (Job.id r) = true /\ callable (Job.func r) = true /\
  is_iter (Job.args r) = true /\ is_dict (Job.kwargs r) = true /\
  delivered self r w w'.
Proof.
  intros H. destruct (isinstance_Job obj) eqn:Hobj.
  - destruct obj; try discriminate Hobj.
    apply enqueue_job_Ok in H as (Hr & (? & ? & ? & ? & _) & _ & Hd).
    repeat split; try done; by rewrite Hr.
  - apply enqueue_call_Ok in H as (Hc & Hr & _ & Hd); [|done].
    repeat split; try done; by rewrite Hr.
Qed.

(** Enough for a run to return: a well-formed input, a spec with a logger,
    a producer and a callable serializer, a serializer that returns and a
    transport that takes the message. *)
Lemma enqueue_returns self obj args kwargs w :
  ~ malformed self obj ->
  isinstance_Logger (EnqueueSpec._logger self) = true ->
  isinstance_KafkaProducer (EnqueueSpec._producer self) = true ->
  callable (EnqueueSpec._serializer self) = true ->
  (forall x, exists v, py_call (EnqueueSpec._serializer self) x = Ok v) ->
  (forall m, kafka_send m = Ok tt) ->
  exists r w',
    EnqueueSpec_enqueue py_call py_str kafka_send self obj args kwargs w
      = (Ok r, w').
Proof.
  intros Hgood Hlogger Hproducer Hser Hcall Hsend.
  assert (forall msg w0, logger_info (EnqueueSpec._logger self) msg w0
                         = (Ok tt, logged msg w0)) as Hlog.
  { intros. by destruct (EnqueueSpec._logger self). }
  assert (producer_send kafka_send (EnqueueSpec._producer self) =
          mret (fun m w => (kafka_send m, touched (Send m) w))) as Hp.
  { by destruct (EnqueueSpec._producer self). }
  assert (forall x w0, exists v, call py_call (EnqueueSpec._serializer self) x w0
                                 = (Ok v, w0)) as Hc.
  { intros x w0. destruct (Hcall x) as [v Hv]. exists v.
    unfold call, lift. by rewrite Hser, Hv. }
  assert (forall (k : Job.t PyVal) key partition ts w0,
    exists r w',
      (logger_info (EnqueueSpec._logger self)
                   ("Enqueueing " ++ py_str (PJob k) ++ " ...") ≫= fun _ =>
       producer_send kafka_send (EnqueueSpec._producer self) ≫= fun send =>
       call py_call (EnqueueSpec._serializer self) (PJob k) ≫= fun value =>
       (if py_truthy key then call py_call (EnqueueSpec._serializer self) key
        else mret PNone) ≫= fun wire_key =>
       send (mkMessage (EnqueueSpec._topic self) value wire_key partition ts)
         ≫= fun _ => mret k) w0 = (Ok r, w')) as Hdeliver.
  { intros. rewrite Hp.
    erewrite bind_run by apply Hlog.
    erewrite bind_run by reflexivity.
    destruct (Hc (PJob k) (logged ("Enqueueing " ++ py_str (PJob k) ++ " ...") w0))
      as [value Hvalue].
    erewrite bind_run by exact Hvalue.
    destruct (py_truthy key).
    - destruct (Hc key (logged ("Enqueueing " ++ py_str (PJob k) ++ " ...") w0))
        as [wk Hwk].
      erewrite bind_run by exact Hwk.
      erewrite bind_run by (by rewrite Hsend). by eexists _, _.
    - erewrite bind_run by reflexivity.
      erewrite bind_run by (by rewrite Hsend). by eexists _, _. }
  unfold EnqueueSpec_enqueue.
  erewrite bind_run by reflexivity.
  destruct (isinstance_Job obj) eqn:Hobj.
  - destruct obj; try discriminate Hobj. unfold malformed in Hgood.
    assert (exists job_id w1,
      (if is_None (Job.id j) then PStr <$> uuid4_hex else mret (Job.id j))
        (tick w) = (Ok job_id, w1) /\ is_str job_id = true)
      as (job_id & w1 & Hid & Hstr).
    { destruct (is_None (Job.id j)) eqn:Hnone; [by eexists _, _|].
      eexists _, _. split; [reflexivity|].
      destruct (is_str (Job.id j)) eqn:E; [done|]. exfalso. apply Hgood.
      by left. }
    erewrite bind_run.
    2: { erewrite bind_run by exact Hid.
         repeat (erewrite bind_run;
                 [|apply assert_run;
                   match goal with
                   | |- ?c = true =>
                       first [assumption
                             |destruct c eqn:?; [done|exfalso; tauto]]
                   end]).
         reflexivity. }
    apply Hdeliver.
  - assert (callable obj = true) as Hcallable.
    { destruct (callable obj) eqn:E; [done|]. exfalso. apply Hgood.
      by destruct obj. }
    destruct obj; try discriminate Hobj.
    all: erewrite bind_run
      by (erewrite bind_run by (apply assert_run; exact Hcallable);
          by erewrite bind_run by reflexivity).
    all: apply Hdeliver.
Qed.

Lemma unless_None_precedence bound own :
  takes_precedence own bound (unless_None bound own).
Proof. unfold takes_precedence, unless_None. by destruct own. Qed.

(** C1: when a Job record is enqueued, each of timeout, key and partition
    of the returned job is the record's own value if that is set and the
    value bound into the EnqueueSpec if it is absent; a timeout of 0 is
    set, and wins. And the job is returned: a record that is well formed
    once its absent fields are resolved, a spec with a logger, a producer
    and a callable serializer, a serializer that returns and a transport
    that takes the message make [enqueue] return. *)
Theorem enqueue_job_precedence self j args kwargs w :
  (forall r w',
     EnqueueSpec_enqueue py_call py_str kafka_send self (PJob j) args kwargs w
       = (Ok r, w') ->
     takes_precedence (Job.timeout j) (EnqueueSpec._timeout self)
                      (Job.timeout r) /\
     takes_precedence (Job.key j) (EnqueueSpec._key self) (Job.key r) /\
     takes_precedence (Job.partition j) (EnqueueSpec._part self)
                      (Job.partition r) /\
     (Job.timeout j = PInt 0 -> Job.timeout r = PInt 0)) /\
  (~ malformed self (PJob j) ->
   isinstance_Logger (EnqueueSpec._logger self) = true ->
   isinstance_KafkaProducer (EnqueueSpec._producer self) = true ->
   callable (EnqueueSpec._serializer self) = true ->
   (forall x, exists v, py_call (EnqueueSpec._serializer self) x = Ok v) ->
   (forall m, kafka_send m = Ok tt) ->
   exists r w',
     EnqueueSpec_enqueue py_call py_str kafka_send self (PJob j) args kwargs w
       = (Ok r, w')).
Proof.
  split; [|apply enqueue_returns].
  intros r w' H. apply enqueue_job_Ok in H as (-> & _). simpl.
  repeat split; try apply unless_None_precedence.
  by intros ->.
Qed.

(** C2: whatever the input carries, the returned job has the topic bound
    into the spec and the time read at the start of the call, and so has
    the message handed to the transport, whose value is the serialized
    returned job. *)
Theorem enqueue_forces_topic_and_timestamp self obj args kwargs w r w' :
  EnqueueSpec_enqueue py_call py_str kafka_send self obj args kwargs w
    = (Ok r, w') ->
  Job.topic r = EnqueueSpec._topic self /\
  Job.timestamp r = PInt (clock w (clock_reads w)) /\
  exists m,
    transport w' = Send m :: transport w /\
    py_call (EnqueueSpec._serializer self) (PJob r) = Ok (msg_value m) /\
    msg_topic m = EnqueueSpec._topic self /\
    msg_timestamp_ms m = PInt (clock w (clock_reads w)).
Proof.
  intros H. apply enqueue_Ok in H as (Hts & Htopic & _ & _ & _ & _ & Hd).
  destruct Hd as (value & wire_key & Hvalue & _ & _ & Hsent).
  repeat split; try done.
  eexists. split; [exact Hsent|]. by rewrite <- Hts.
Qed.

(** C6: a raw callable enqueued without further arguments gives a job
    with args the empty tuple and kwargs the empty dict; a Job record
    whose args or kwargs are absent gives the same; args and kwargs of a
    returned job are never absent. And the job is returned: an input that
    is well formed once its absent fields are defaulted (absent args and
    kwargs are), a spec with a logger, a producer and a callable serializer,
    a serializer that returns and a transport that takes the message make
    [enqueue] return. *)
Theorem enqueue_defaults_args self obj args kwargs w :
  (forall r w',
     EnqueueSpec_enqueue py_call py_str kafka_send self obj args kwargs w
       = (Ok r, w') ->
     (isinstance_Job obj = false -> args = [] -> kwargs = [] ->
      Job.args r = PTuple [] /\ Job.kwargs r = PDict []) /\
     (forall j, obj = PJob j ->
        (Job.args j = PNone -> Job.args r = PTuple []) /\
        (Job.kwargs j = PNone -> Job.kwargs r = PDict [])) /\
     Job.args r <> PNone /\ Job.kwargs r <> PNone /\
     is_iter (Job.args r) = true /\ is_dict (Job.kwargs r) = true) /\
  (~ malformed self obj ->
   isinstance_Logger (EnqueueSpec._logger self) = true ->
   isinstance_KafkaProducer (EnqueueSpec._producer self) = true ->
   callable (EnqueueSpec._serializer self) = true ->
   (forall x, exists v, py_call (EnqueueSpec._serializer self) x = Ok v) ->
   (forall m, kafka_send m = Ok tt) ->
   exists r w',
     EnqueueSpec_enqueue py_call py_str kafka_send self obj args kwargs w
       = (Ok r, w')).
Proof.
  split; [|apply enqueue_returns].
  intros r w' H. pose proof (enqueue_Ok _ _ _ _ _ _ _ H)
    as (_ & _ & _ & _ & Hargs & Hkwargs & _).
  repeat split; try done.
  - by apply enqueue_call_Ok in H as (_ & -> & _); [subst|].
  - by apply enqueue_call_Ok in H as (_ & -> & _); [subst|].
  - subst obj. apply enqueue_job_Ok in H as (-> & _). simpl. by intros ->.
  - subst obj. apply enqueue_job_Ok in H as (-> & _). simpl. by intros ->.
  - by intros E; rewrite E in Hargs.
  - by intros E; rewrite E in Hkwargs.
Qed.

(** A keyword [obj] stops [Queue.enqueue] before anything is done. *)
Lemma Queue_enqueue_keyword_obj q func args kwargs w :
  has_keyword "obj" kwargs = true ->
  Queue_enqueue py_call py_str kafka_send q func args kwargs w =
    (Raise (TypeError "enqueue() got multiple values for argument 'obj'"), w).
Proof. intros Hobj. unfold Queue_enqueue. by rewrite Hobj. Qed.

(** Without it, [Queue.enqueue] is [enqueue] on the default spec. *)
Lemma Queue_enqueue_default_spec q func args kwargs w :
  has_keyword "obj" kwargs = false ->
  Queue_enqueue py_call py_str kafka_send q func args kwargs w =
    EnqueueSpec_enqueue py_call py_str kafka_send
      (Queue._default_enqueue_spec q) func args kwargs w.
Proof. intros Hobj. unfold Queue_enqueue. by rewrite Hobj. Qed.

(** X15: where a Job record is passed, [EnqueueSpec.enqueue] does not look at
    the arguments of the call: the run, with its result and its effects, is
    the same whatever they are, and so is that of [Queue.enqueue] as long
    as no keyword is named [obj]; args and kwargs of the returned job are
    those of the record where it has them, and empty where it has not. *)
Theorem enqueue_job_ignores_arguments self q j args kwargs args' kwargs' w :
  EnqueueSpec_enqueue py_call py_str kafka_send self (PJob j) args kwargs w =
    EnqueueSpec_enqueue py_call py_str kafka_send self (PJob j) args' kwargs' w /\
  (has_keyword "obj" kwargs = false -> has_keyword "obj" kwargs' = false ->
   Queue_enqueue py_call py_str kafka_send q (PJob j) args kwargs w =
     Queue_enqueue py_call py_str kafka_send q (PJob j) args' kwargs' w) /\
  (forall r w',
     EnqueueSpec_enqueue py_call py_str kafka_send self (PJob j) args kwargs w
       = (Ok r, w') ->
     takes_precedence (Job.args j) (PTuple []) (Job.args r) /\
     takes_precedence (Job.kwargs j) (PDict []) (Job.kwargs r)) /\
  (~ malformed self (PJob j) ->
   isinstance_Logger (EnqueueSpec._logger self) = true ->
   isinstance_KafkaProducer (EnqueueSpec._producer self) = true ->
   callable (EnqueueSpec._serializer self) = true ->
   (forall x, exists v, py_call (EnqueueSpec._serializer self) x = Ok v) ->
   (forall m, kafka_send m = Ok tt) ->
   exists r w',
     EnqueueSpec_enqueue py_call py_str kafka_send self (PJob j) args kwargs w
       = (Ok r, w')).
Proof.
  split; [reflexivity|]. split.
  { intros Hk Hk'. by rewrite !Queue_enqueue_default_spec. }
  split; [|apply enqueue_returns].
  intros r w' H. apply enqueue_job_Ok in H as (-> & _). simpl.
  split; apply unless_None_precedence.
Qed.

(** C5: a malformed input makes [enqueue] stop on a failed assertion
    with the producer untouched; so whenever a run has used the producer,
    every check had passed. *)
Theorem enqueue_validates_before_send self obj args kwargs w :
  (malformed self obj ->
   refused (EnqueueSpec_enqueue py_call py_str kafka_send self obj args kwargs w) w) /\
  (transport
     (EnqueueSpec_enqueue py_call py_str kafka_send self obj args kwargs w).2
     <> transport w ->
   ~ malformed self obj).
Proof.
  assert (malformed self obj ->
          refused (EnqueueSpec_enqueue py_call py_str kafka_send self obj args kwargs w) w)
    as Hrefused.
  { intros Hbad. unfold EnqueueSpec_enqueue.
    eapply refused_bind_Ok; [reflexivity|]. apply refused_bind.
    destruct obj; try discriminate Hbad;
      try (by apply refused_assert_false);
      try (unfold malformed in Hbad; rewrite Hbad;
           by apply refused_assert_false).
    unfold malformed in Hbad.
    destruct (is_None (Job.id _)) eqn:Hid;
      (eapply refused_bind_Ok; [reflexivity|]);
      repeat check_next; exfalso; simpl in Hbad;
      destruct Hbad as [?|[?|[?|[?|[?|[?|?]]]]]]; congruence. }
  split; [done|].
  intros Hsent Hbad. destruct (Hrefused Hbad) as (msg & _ & Hw). done.
Qed.

(** The key on the wire: the serialized key when the key of the job is
    truthy, none when it is [None] and also when it is [b'']. *)
Lemma enqueue_wire_key self obj args kwargs w r w' :
  EnqueueSpec_enqueue py_call py_str kafka_send self obj args kwargs w
    = (Ok r, w') ->
  exists m,
    transport w' = Send m :: transport w /\
    (py_truthy (Job.key r) = true ->
     py_call (EnqueueSpec._serializer self) (Job.key r) = Ok (msg_key m)) /\
    (Job.key r = PNone \/ Job.key r = PBytes [] -> msg_key m = PNone).
Proof.
  intros H. apply enqueue_Ok in H as (_ & _ & _ & _ & _ & _ & Hd).
  destruct Hd as (value & wire_key & _ & Hkey & _ & Hsent).
  eexists. split; [exact Hsent|]. simpl. split.
  - intros Ht. by rewrite Ht in Hkey.
  - by intros [E|E]; rewrite E in Hkey.
Qed.

(** C7, as the code has it: a returned job has id and timestamp
    populated. Its id is a string: the id of the input Job when that is
    present (any string, the empty one too), and otherwise a fresh one, made
    from the next draw of the random source, and not empty. Its timestamp
    is an integer. Its topic is the topic bound into the spec: a string
    whenever that is one, as it is for every spec of a queue. And the job is
    returned: a well-formed input, a spec with a logger, a producer and a
    callable serializer, a serializer that returns and a transport that
    takes the message make [enqueue] return. *)
Theorem enqueue_populates_identity self obj args kwargs w :
  (forall r w',
     EnqueueSpec_enqueue py_call py_str kafka_send self obj args kwargs w
       = (Ok r, w') ->
     (exists s, Job.id r = PStr s) /\
     (forall j, obj = PJob j -> Job.id j <> PNone -> Job.id r = Job.id j) /\
     (isinstance_Job obj = false \/
      (exists j, obj = PJob j /\ Job.id j = PNone) ->
      Job.id r = PStr (uuid4_hex_of (entropy w (entropy_draws w))) /\
      uuid4_hex_of (entropy w (entropy_draws w)) <> "" /\
      String.length (uuid4_hex_of (entropy w (entropy_draws w))) = 32%nat /\
      entropy_draws w' = S (entropy_draws w)) /\
     (exists n, Job.timestamp r = PInt n) /\
     Job.topic r = EnqueueSpec._topic self /\
     (is_str (EnqueueSpec._topic self) = true ->
      exists t, Job.topic r = PStr t) /\
     (forall topic producer serializer timeout logger w0 q w1,
        Queue_init topic producer serializer timeout logger w0 = (Ok q, w1) ->
        spec_of q self ->
        exists t, Job.topic r = PStr t /\ topic = PStr t)) /\
  (~ malformed self obj ->
   isinstance_Logger (EnqueueSpec._logger self) = true ->
   isinstance_KafkaProducer (EnqueueSpec._producer self) = true ->
   callable (EnqueueSpec._serializer self) = true ->
   (forall x, exists v, py_call (EnqueueSpec._serializer self) x = Ok v) ->
   (forall m, kafka_send m = Ok tt) ->
   exists r w',
     EnqueueSpec_enqueue py_call py_str kafka_send self obj args kwargs w
       = (Ok r, w')).
Proof.
  split; [|apply enqueue_returns].
  intros r w' H.
  pose proof (enqueue_Ok _ _ _ _ _ _ _ H) as (Hts & Htop & Hid & _).
  assert (forall x, uuid4_hex_of x <> "") as Hfresh.
  { intros x E. pose proof (uuid4_hex_of_length x) as Hlen.
    rewrite E in Hlen. discriminate Hlen. }
  split; [destruct (Job.id r); try discriminate; by eexists|].
  split.
  { intros j -> Hset. apply enqueue_job_Ok in H as (-> & _). simpl.
    by destruct (Job.id j). }
  split.
  { intros [Hobj|(j & -> & Hnone)].
    - apply enqueue_call_Ok in H as (_ & -> & Hdraw & _); [|done].
      by rewrite uuid4_hex_of_length.
    - apply enqueue_job_Ok in H as (-> & _ & Hdraw & _).
      rewrite Hnone in Hdraw |- *. by rewrite uuid4_hex_of_length. }
  split; [by eexists|]. split; [done|]. split.
  { intros Hstr. rewrite Htop.
    destruct (EnqueueSpec._topic self); try discriminate Hstr. by eexists. }
  intros * Hq Hself.
  destruct (spec_of_topic _ _ _ _ _ _ _ _ _ Hq Hself) as (Htopic & t & ->).
  exists t. by rewrite Htop, Htopic.
Qed.

End EnqueueFacts.

(** ** The laws at work *)

Lemma demo_queue_init :
  Queue_init (PStr "t") demo_producer PNone (PInt 10) PNone demo_world =
  (Ok demo_queue, touched (ConfigRead "bootstrap_servers") demo_world).
Proof. reflexivity. Qed.

(** The conditions under which a run returns, in the concrete setting. *)
Ltac well_formed_input :=
  let Hbad := fresh "Hbad" in
  intros Hbad; vm_compute in Hbad;
  repeat (destruct Hbad as [Hbad|Hbad]; [discriminate Hbad|]);
  discriminate Hbad.

Ltac demo_setting :=
  first [ well_formed_input
        | reflexivity
        | intros ?; eexists; reflexivity
        | intros ?; reflexivity ].

(** With [timeout=10, key=b'k', partition=3] bound: [Job(timeout=5)] keeps
    its 5 and takes key and partition; a Job without timeout takes the 10;
    [Job(timeout=0)] keeps its 0. *)
Lemma enqueue_job_precedence_witness :
  (exists r w',
     EnqueueSpec_enqueue demo_call demo_str demo_send demo_spec
       (PJob demo_job_timeout) [] [] demo_world = (Ok r, w') /\
     Job.timeout r = PInt 5 /\ Job.key r = PBytes [Byte.x6b] /\
     Job.partition r = PInt 3) /\
  (exists r w',
     EnqueueSpec_enqueue demo_call demo_str demo_send demo_spec
       (PJob demo_job_plain) [] [] demo_world = (Ok r, w') /\
     Job.timeout r = PInt 10 /\ Job.key r = PBytes [Byte.x6b] /\
     Job.partition r = PInt 3) /\
  (exists r w',
     EnqueueSpec_enqueue demo_call demo_str demo_send demo_spec
       (PJob demo_job_zero_timeout) [] [] demo_world = (Ok r, w') /\
     Job.timeout r = PInt 0).
Proof.
  split; [|split].
  - destruct (enqueue_job_precedence demo_call demo_str demo_send demo_spec
                demo_job_timeout [] [] demo_world) as [Hfields Hreturns].
    destruct Hreturns as (r & w' & Hrun); [demo_setting..|].
    exists r, w'. split; [exact Hrun|].
    destruct (Hfields r w' Hrun) as ((Ht & _) & (_ & Hk) & (_ & Hp) & _).
    split; [by apply Ht|]. split; [by apply Hk | by apply Hp].
  - destruct (enqueue_job_precedence demo_call demo_str demo_send demo_spec
                demo_job_plain [] [] demo_world) as [Hfields Hreturns].
    destruct Hreturns as (r & w' & Hrun); [demo_setting..|].
    exists r, w'. split; [exact Hrun|].
    destruct (Hfields r w' Hrun) as ((_ & Ht) & (_ & Hk) & (_ & Hp) & _).
    split; [by apply Ht|]. split; [by apply Hk | by apply Hp].
  - destruct (enqueue_job_precedence demo_call demo_str demo_send demo_spec
                demo_job_zero_timeout [] [] demo_world) as [Hfields Hreturns].
    destruct Hreturns as (r & w' & Hrun); [demo_setting..|].
    exists r, w'. split; [exact Hrun|].
    destruct (Hfields r w' Hrun) as (_ & _ & _ & Hzero).
    by apply Hzero.
Defined.

Lemma enqueue_forces_topic_and_timestamp_witness :
  exists r w',
    EnqueueSpec_enqueue demo_call demo_str demo_send demo_spec
      (PJob demo_job_stale) [] [] demo_world = (Ok r, w') /\
    Job.topic r = PStr "t" /\ Job.timestamp r = PInt 1700000000000 /\
    exists m,
      transport w' = [Send m] /\
      demo_call dill_dumps (PJob r) = Ok (msg_value m) /\
      msg_topic m = PStr "t" /\ msg_timestamp_ms m = PInt 1700000000000.
Proof.
  eexists _, _. split; [vm_compute; reflexivity|].
  apply (enqueue_forces_topic_and_timestamp demo_call demo_str demo_send
           demo_spec (PJob demo_job_stale) [] [] demo_world).
  vm_compute; reflexivity.
Defined.

Lemma enqueue_validates_before_send_witness :
  refused (EnqueueSpec_enqueue demo_call demo_str demo_send demo_spec
             (PJob demo_job_bad_func) [] [] demo_world) demo_world /\
  ~ malformed demo_spec (PJob demo_job_timeout).
Proof.
  split.
  - apply (enqueue_validates_before_send demo_call demo_str demo_send demo_spec
             (PJob demo_job_bad_func) [] [] demo_world).
    right; left; reflexivity.
  - apply (enqueue_validates_before_send demo_call demo_str demo_send demo_spec
             (PJob demo_job_timeout) [] [] demo_world).
    vm_compute. discriminate.
Defined.

(** [enqueue(requests.get)] and [enqueue(Job(func=requests.get))] both give
    [args=()] and [kwargs={}]. *)
Lemma enqueue_defaults_args_witness :
  (exists r w',
     EnqueueSpec_enqueue demo_call demo_str demo_send demo_spec
       demo_func [] [] demo_world = (Ok r, w') /\
     Job.args r = PTuple [] /\ Job.kwargs r = PDict []) /\
  (exists r w',
     EnqueueSpec_enqueue demo_call demo_str demo_send demo_spec
       (PJob demo_job_plain) [] [] demo_world = (Ok r, w') /\
     Job.args r = PTuple [] /\ Job.kwargs r = PDict []).
Proof.
  split.
  - destruct (enqueue_defaults_args demo_call demo_str demo_send demo_spec
                demo_func [] [] demo_world) as [Hfields Hreturns].
    destruct Hreturns as (r & w' & Hrun); [demo_setting..|].
    exists r, w'. split; [exact Hrun|].
    destruct (Hfields r w' Hrun) as (Hraw & _).
    by apply Hraw.
  - destruct (enqueue_defaults_args demo_call demo_str demo_send demo_spec
                (PJob demo_job_plain) [] [] demo_world) as [Hfields Hreturns].
    destruct Hreturns as (r & w' & Hrun); [demo_setting..|].
    exists r, w'. split; [exact Hrun|].
    destruct (Hfields r w' Hrun) as (_ & Hjob & _).
    destruct (Hjob demo_job_plain eq_refl) as [Hargs Hkwargs].
    split; [by apply Hargs | by apply Hkwargs].
Defined.

(** [enqueue(Job(func=requests.get, args=['url'], kwargs={'allow': 1}), 7, x=2)]
    runs as [enqueue] of the job alone does, and returns the args and
    kwargs of the record. *)
Lemma enqueue_job_ignores_arguments_witness :
  EnqueueSpec_enqueue demo_call demo_str demo_send demo_spec
    (PJob demo_job_args) [PInt 7] [("x", PInt 2)] demo_world =
  EnqueueSpec_enqueue demo_call demo_str demo_send demo_spec
    (PJob demo_job_args) [] [] demo_world /\
  Queue_enqueue demo_call demo_str demo_send demo_queue
    (PJob demo_job_args) [PInt 7] [("x", PInt 2)] demo_world =
  Queue_enqueue demo_call demo_str demo_send demo_queue
    (PJob demo_job_args) [] [] demo_world /\
  exists r w',
    EnqueueSpec_enqueue demo_call demo_str demo_send demo_spec
      (PJob demo_job_args) [PInt 7] [("x", PInt 2)] demo_world
      = (Ok r, w') /\
    Job.args r = PList [PStr "url"] /\
    Job.kwargs r = PDict [(PStr "allow", PInt 1)].
Proof.
  destruct (enqueue_job_ignores_arguments demo_call demo_str demo_send
              demo_spec demo_queue demo_job_args
              [PInt 7] [("x", PInt 2)] [] [] demo_world)
    as (Hsame & Hqueue & Hrec & Hreturns).
  split; [exact Hsame|]. split; [by apply Hqueue|].
  destruct Hreturns as (r & w' & Hrun); [demo_setting..|].
  exists r, w'. split; [exact Hrun|].
  destruct (Hrec r w' Hrun) as ((Hargs & _) & (Hkwargs & _)).
  split; [by apply Hargs | by apply Hkwargs].
Defined.

(** On [Queue(topic='t', producer=producer, timeout=10)]: a raw callable
    gets a fresh id; [Job(id='7', func=requests.get)] keeps its id;
    [Job(func=requests.get)] gets a fresh id. *)
Lemma enqueue_populates_identity_witness :
  (exists r w',
     EnqueueSpec_enqueue demo_call demo_str demo_send
       (Queue._default_enqueue_spec demo_queue) demo_func
       [PInt 1] [("x", PInt 2)] demo_world = (Ok r, w') /\
     Job.id r = PStr "0123456789ab4def8123456789abcdef" /\
     entropy_draws w' = 1%nat /\
     (exists n, Job.timestamp r = PInt n) /\
     (exists t, Job.topic r = PStr t /\ PStr "t" = PStr t)) /\
  (exists r w',
     EnqueueSpec_enqueue demo_call demo_str demo_send
       (Queue._default_enqueue_spec demo_queue) (PJob demo_job_with_id)
       [] [] demo_world = (Ok r, w') /\
     Job.id r = PStr "7") /\
  (exists r w',
     EnqueueSpec_enqueue demo_call demo_str demo_send
       (Queue._default_enqueue_spec demo_queue) (PJob demo_job_plain)
       [] [] demo_world = (Ok r, w') /\
     Job.id r = PStr "0123456789ab4def8123456789abcdef").
Proof.
  split; [|split].
  - destruct (enqueue_populates_identity demo_call demo_str demo_send
                (Queue._default_enqueue_spec demo_queue)
                demo_func [PInt 1] [("x", PInt 2)] demo_world)
      as [Hfields Hreturns].
    destruct Hreturns as (r & w' & Hrun); [demo_setting..|].
    exists r, w'. split; [exact Hrun|].
    destruct (Hfields r w' Hrun) as (_ & _ & Hfresh & Hts & _ & _ & Htopic).
    destruct Hfresh as (Hid & _ & _ & Hdraw); [by left|].
    split; [exact Hid|]. split; [exact Hdraw|]. split; [exact Hts|].
    eapply Htopic; [exact demo_queue_init | by left].
  - destruct (enqueue_populates_identity demo_call demo_str demo_send
                (Queue._default_enqueue_spec demo_queue)
                (PJob demo_job_with_id) [] [] demo_world)
      as [Hfields Hreturns].
    destruct Hreturns as (r & w' & Hrun); [demo_setting..|].
    exists r, w'. split; [exact Hrun|].
    destruct (Hfields r w' Hrun) as (_ & Hkept & _).
    by apply (Hkept demo_job_with_id).
  - destruct (enqueue_populates_identity demo_call demo_str demo_send
                (Queue._default_enqueue_spec demo_queue)
                (PJob demo_job_plain) [] [] demo_world)
      as [Hfields Hreturns].
    destruct Hreturns as (r & w' & Hrun); [demo_setting..|].
    exists r, w'. split; [exact Hrun|].
    destruct (Hfields r w' Hrun) as (_ & _ & Hfresh & _).
    destruct Hfresh as (Hid & _); [right; by exists demo_job_plain|].
    exact Hid.
Defined.

(** C7 as the spec words it fails at two inputs. At
    [Queue(topic='t', producer=producer, timeout=10).enqueue(Job(id='', func=requests.get))]
    the empty string is accepted as an id, and the job returned carries it.
    At
    [EnqueueSpec(topic=None, producer=producer, serializer=dill.dumps, logger=logging.getLogger('kq.queue'), timeout=10, key=None, partition=None).enqueue(requests.get)]
    the topic bound into the spec is not a string, [EnqueueSpec.__init__]
    does not look at it, and the job returned has no topic. *)
Lemma enqueue_keeps_empty_id_and_absent_topic :
  (exists q w1 r w2,
     Queue_init (PStr "t") demo_producer PNone (PInt 10) PNone demo_world
       = (Ok q, w1) /\
     Queue_enqueue demo_call demo_str demo_send q
       (PJob demo_job_empty_id) [] [] w1 = (Ok r, w2) /\
     Job.id r = PStr "" /\
     ~ (exists s, Job.id r = PStr s /\ s <> "")) /\
  (exists self w1 r w2,
     EnqueueSpec_init PNone demo_producer dill_dumps (getLogger "kq.queue")
                      (PInt 10) PNone PNone demo_world = (Ok self, w1) /\
     EnqueueSpec_enqueue demo_call demo_str demo_send self
       demo_func [] [] w1 = (Ok r, w2) /\
     Job.topic r = PNone /\
     ~ (exists t, Job.topic r = PStr t)).
Proof.
  split.
  - eexists _, _, _, _. split; [vm_compute; reflexivity|].
    split; [vm_compute; reflexivity|].
    split; [reflexivity|]. intros (s & [= <-] & Hs). by apply Hs.
  - eexists _, _, _, _. split; [vm_compute; reflexivity|].
    split; [vm_compute; reflexivity|].
    split; [reflexivity|]. intros (t & Ht). discriminate Ht.
Qed.

(** ** Where the code parts from the spec *)

(** [using] takes the default of the queue for every falsy timeout, 0
    included. *)
Lemma Queue_using_falsy_timeout q timeout key partition w :
  py_truthy timeout = false ->
  Queue_using q timeout key partition w =
  EnqueueSpec_init (Queue._topic q) (Queue._producer q) (Queue._serializer q)
                   (Queue._logger q) (Queue._timeout q) key partition w.
Proof. intros Hf. unfold Queue_using, py_or. by rewrite Hf. Qed.

(** C3 at [Queue(topic='t', producer=producer, timeout=10).using(timeout=0)]:
    the spec binds 10, the default of the queue, not 0. *)
Theorem using_zero_timeout_takes_default :
  exists q w1 self w2,
    Queue_init (PStr "t") demo_producer PNone (PInt 10) PNone demo_world
      = (Ok q, w1) /\
    Queue_using q (PInt 0) PNone PNone w1 = (Ok self, w2) /\
    Queue._timeout q = PInt 10 /\
    EnqueueSpec._timeout self = PInt 10.
Proof.
  eexists _, _, _, _. split; [vm_compute; reflexivity|].
  split; [vm_compute; reflexivity|]. by split.
Qed.

(** C4 at
    [Queue(topic='t', producer=producer, timeout=10).enqueue(Job(func=requests.get, key=b''))]:
    the job returned carries the key [b''], and the message is sent with no
    key, although the serializer has a value for [b'']. *)
Theorem enqueue_empty_key_sent_without_key :
  exists q w1 r w2 m,
    Queue_init (PStr "t") demo_producer PNone (PInt 10) PNone demo_world
      = (Ok q, w1) /\
    Queue_enqueue demo_call demo_str demo_send q
      (PJob demo_job_empty_key) [] [] w1 = (Ok r, w2) /\
    Job.key r = PBytes [] /\
    transport w2 = Send m :: transport w1 /\
    msg_key m = PNone /\
    demo_call (Queue._serializer q) (PBytes []) =
      Ok (PTuple [dill_dumps; PBytes []]).
Proof.
  eexists _, _, _, _, _. split; [vm_compute; reflexivity|].
  split; [vm_compute; reflexivity|]. by repeat split.
Qed.

(** C10 at
    [Queue(topic='t', producer=producer, timeout=10).enqueue(Job(func=requests.get, args=['url'], kwargs={'allow': 1}), obj=1)]:
    with the keyword [x=2] in the place of [obj=1] the job is returned, with
    the args and kwargs of the record; the keyword [obj=1] is not ignored:
    the call raises a TypeError, and nothing is read, logged or sent. *)
Theorem Queue_enqueue_job_keyword_obj_raises :
  exists q w1,
    Queue_init (PStr "t") demo_producer PNone (PInt 10) PNone demo_world
      = (Ok q, w1) /\
    (exists r w2,
       Queue_enqueue demo_call demo_str demo_send q
         (PJob demo_job_args) [] [("x", PInt 2)] w1 = (Ok r, w2) /\
       Job.args r = PList [PStr "url"] /\
       Job.kwargs r = PDict [(PStr "allow", PInt 1)]) /\
    Queue_enqueue demo_call demo_str demo_send q
      (PJob demo_job_args) [] [("obj", PInt 1)] w1 =
    (Raise (TypeError "enqueue() got multiple values for argument 'obj'"), w1).
Proof.
  eexists _, _. split; [vm_compute; reflexivity|]. split.
  - eexists _, _. split; [vm_compute; reflexivity|]. by split.
  - vm_compute. reflexivity.
Qed.

(** ** Validation in the constructors *)

(** C8: a Queue constructed with a topic that is not a string, a serializer
    that is neither absent nor callable, or a timeout that is not a number or
    is negative stops on a failed assertion with the producer untouched; so
    does an EnqueueSpec constructed with a key that is neither absent nor
    bytes, a timeout that is not a number, or a partition that is neither
    absent nor an integer, directly or through [using]. *)
Theorem constructors_validate :
  (forall topic producer serializer timeout logger w,
     is_str topic = false \/ is_none_or_func serializer = false \/
     is_number timeout = false \/ py_ge_zero timeout = Ok false ->
     refused (Queue_init topic producer serializer timeout logger w) w) /\
  (forall topic producer serializer logger timeout key partition w,
     is_none_or_bytes key = false \/ is_number timeout = false \/
     is_none_or_int partition = false ->
     refused (EnqueueSpec_init topic producer serializer logger timeout key
                               partition w) w) /\
  (forall q timeout key partition w,
     is_none_or_bytes key = false \/
     (py_truthy timeout = true /\ is_number timeout = false) \/
     is_none_or_int partition = false ->
     refused (Queue_using q timeout key partition w) w).
Proof.
  assert (forall topic producer serializer logger timeout key partition w,
     is_none_or_bytes key = false \/ is_number timeout = false \/
     is_none_or_int partition = false ->
     refused (EnqueueSpec_init topic producer serializer logger timeout key
                               partition w) w) as Hspec.
  { intros * Hbad. unfold EnqueueSpec_init.
    repeat check_next. exfalso. destruct Hbad as [?|[?|?]]; congruence. }
  split; [|split]; [|done|].
  - intros * Hbad. unfold Queue_init.
    do 4 check_next.
    destruct (py_ge_zero timeout) as [nonneg|e] eqn:Hge.
    2: { destruct timeout; discriminate. }
    eapply refused_bind_Ok; [reflexivity|]. check_next.
    exfalso. destruct Hbad as [?|[?|[?|?]]]; congruence.
  - intros q timeout key partition w Hbad. apply Hspec.
    destruct Hbad as [?|[[Ht Hn]|?]]; auto.
    right; left. unfold py_or. by rewrite Ht.
Qed.

(** ** The order of the keyword arguments *)

Lemma string_leb_iff (a b : string) :
  String.leb a b = true <-> a = b \/ String_as_OT.lt a b.
Proof.
  unfold String.leb. destruct (String.compare a b) eqn:E.
  - apply String_as_OT.cmp_eq in E. tauto.
  - apply String_as_OT.cmp_lt in E. tauto.
  - split; [discriminate|]. intros [Heq|Hlt].
    + apply String_as_OT.cmp_eq in Heq. unfold String_as_OT.cmp in Heq. congruence.
    + apply String_as_OT.cmp_lt in Hlt. unfold String_as_OT.cmp in Hlt. congruence.
Qed.

Lemma string_ltb_iff (a b : string) :
  String.ltb a b = true <-> String_as_OT.lt a b.
Proof.
  unfold String.ltb. rewrite <- String_as_OT.cmp_lt. unfold String_as_OT.cmp.
  destruct (String.compare a b); split; congruence.
Qed.

#[global] Instance item_le_total : Total item_le.
Proof. intros p q. apply String.leb_total. Qed.

#[global] Instance item_le_trans : Transitive item_le.
Proof.
  intros p q r. unfold item_le. rewrite !string_leb_iff.
  intros [E1|H1] [E2|H2].
  - left. congruence.
  - right. by rewrite E1.
  - right. by rewrite <- E2.
  - right. eapply String_as_OT.lt_trans; eauto.
Qed.

#[global] Instance key_lt_antisym : AntiSymm (=) key_lt.
Proof.
  intros p q. unfold key_lt. rewrite !string_ltb_iff. intros H1 H2.
  destruct (String_as_OT.lt_not_eq _ _ (String_as_OT.lt_trans _ _ _ H1 H2)).
  reflexivity.
Qed.

Lemma item_le_key_lt p q : item_le p q -> p.1 <> q.1 -> key_lt p q.
Proof.
  unfold item_le, key_lt. rewrite string_leb_iff, string_ltb_iff. tauto.
Qed.

(** Sorted items of a dict, whose keys differ, ascend strictly. *)
Lemma StronglySorted_key_lt (items : list (string * PyVal)) :
  NoDup items.*1 -> StronglySorted item_le items -> StronglySorted key_lt items.
Proof.
  induction 2 as [|p items Hs IH Hp]; [constructor|].
  rewrite fmap_cons in H. apply NoDup_cons in H as [Hnotin Hnodup].
  constructor; [by apply IH|].
  rewrite Forall_forall in Hp |- *. intros q Hq.
  apply item_le_key_lt; [by apply Hp|].
  intros Heq. apply Hnotin. rewrite Heq. by apply list_elem_of_fmap_2.
Qed.

Lemma sorted_items_Permutation items : sorted_items items ≡ₚ items.
Proof. apply merge_sort_Permutation. Qed.

Lemma sorted_items_ascending items :
  NoDup items.*1 -> StronglySorted key_lt (sorted_items items).
Proof.
  intros Hnodup. apply StronglySorted_key_lt.
  - by rewrite sorted_items_Permutation.
  - apply StronglySorted_merge_sort; apply _.
Qed.

(** Two dicts with the same items, whatever the order they were inserted
    in, sort to the same list. *)
Lemma sorted_items_unique items items' :
  NoDup items.*1 -> items' ≡ₚ items -> sorted_items items' = sorted_items items.
Proof.
  intros Hnodup Hperm. apply (StronglySorted_unique key_lt).
  - apply sorted_items_ascending. by rewrite Hperm.
  - by apply sorted_items_ascending.
  - by rewrite !sorted_items_Permutation.
Qed.

(** C9 at [get_call_repr(str.upper, 'abc')]: [str.upper] is callable, and
    it is neither function, method, builtin nor class, so that the second
    branch reads its [__module__]; it has none, and the call raises an
    AttributeError where a text is to be returned. This is so whatever the
    arguments are. *)
Theorem get_call_repr_method_descriptor_raises :
  callable demo_str_upper = true /\
  get_call_repr demo_repr demo_str_upper [PStr "abc"] [] =
    Raise (AttributeError "__module__") /\
  forall py_repr args kwargs,
    get_call_repr py_repr demo_str_upper args kwargs =
      Raise (AttributeError "__module__").
Proof. by repeat split. Qed.

(** X16: where [get_call_repr] gets past its first statement, the text is
    the prefix set there, then, in brackets and joined by [', '], the
    [repr] of the positional arguments in call order followed by
    [key=repr(value)] for the keyword arguments in strictly ascending order
    of the keys; two dicts of keyword arguments with the same items give the
    same text. The prefix is [module.qualname] for a function, method or
    builtin, [module.ClassName] for a callable object that has a
    [__module__], and [repr(func)] for a class and for what is not
    callable; a callable object without [__module__] makes the first
    statement, and with it the call, raise an AttributeError. *)
Theorem get_call_repr_order (py_repr : PyVal -> string) (func : PyVal) :
  (forall prefix, func_repr_of py_repr func = Ok prefix ->
   forall args kwargs,
     NoDup kwargs.*1 ->
     exists items,
       items ≡ₚ kwargs /\
       StronglySorted key_lt items /\
       get_call_repr py_repr func args kwargs =
         Ok (prefix ++ "(" ++
             String.concat ", "
               (map py_repr args ++
                map (fun kv => (kv.1 ++ "=" ++ py_repr kv.2)%string) items)%list
             ++ ")") /\
       forall kwargs', kwargs' ≡ₚ kwargs ->
         get_call_repr py_repr func args kwargs' =
         get_call_repr py_repr func args kwargs) /\
  (forall e, func_repr_of py_repr func = Raise e ->
   forall args kwargs, get_call_repr py_repr func args kwargs = Raise e) /\
  func_repr_of py_repr func =
    match func with
    | PFunc _ m q => Ok (default "None" m ++ "." ++ q)
    | PObj o =>
        if obj_callable o then
          match obj_module o with
          | Some m => Ok (default "None" m ++ "." ++ obj_class o)
          | None => Raise (AttributeError "__module__")
          end
        else Ok (py_repr func)
    | _ => Ok (py_repr func)
    end.
Proof.
  split; [|split].
  - intros prefix Hprefix args kwargs Hnodup. exists (sorted_items kwargs).
    split; [apply sorted_items_Permutation|].
    split; [by apply sorted_items_ascending|].
    split; [unfold get_call_repr; by rewrite Hprefix|].
    intros kwargs' Hperm. unfold get_call_repr.
    by rewrite (sorted_items_unique kwargs kwargs').
  - intros e He args kwargs. unfold get_call_repr. by rewrite He.
  - destruct func as [| | | | | | | | |k m q| |o| | |]; try reflexivity.
    + by destruct k.
    + unfold func_repr_of. simpl.
      destruct (obj_callable o); [|reflexivity].
      by destruct (obj_module o).
Qed.

Lemma constructors_validate_witness :
  refused (Queue_init (PStr "t") demo_producer PNone (PInt (-1)) PNone
                      demo_world) demo_world /\
  refused (EnqueueSpec_init (PStr "t") demo_producer dill_dumps
                            (getLogger "kq.queue") (PInt 10) (PStr "k") PNone
                            demo_world) demo_world /\
  refused (Queue_using demo_queue (PStr "soon") PNone PNone demo_world)
          demo_world.
Proof.
  destruct constructors_validate as (Hqueue & Hspec & Husing).
  split; [|split].
  - apply Hqueue. right; right; right. reflexivity.
  - apply Hspec. left. reflexivity.
  - apply Husing. right; left. split; reflexivity.
Defined.

(** [get_call_repr(requests.get, 'url', timeout=2, allow=1)] *)
Lemma get_call_repr_order_witness :
  exists items,
    items ≡ₚ [("timeout", PInt 2); ("allow", PInt 1)] /\
    StronglySorted key_lt items /\
    get_call_repr demo_repr demo_func [PStr "url"]
                  [("timeout", PInt 2); ("allow", PInt 1)] =
      Ok ("requests.api.get" ++ "(" ++
          String.concat ", "
            (map demo_repr [PStr "url"] ++
             map (fun kv => (kv.1 ++ "=" ++ demo_repr kv.2)%string) items)%list
          ++ ")") /\
    get_call_repr demo_repr demo_func [PStr "url"]
                  [("timeout", PInt 2); ("allow", PInt 1)] =
      Ok "requests.api.get('url', allow=1, timeout=2)".
Proof.
  destruct (get_call_repr_order demo_repr demo_func) as (Horder & _ & _).
  destruct (Horder "requests.api.get" eq_refl
              [PStr "url"] [("timeout", PInt 2); ("allow", PInt 1)])
    as (items & Hperm & Hsorted & Htext & _).
  { apply NoDup_cons. split; [|apply NoDup_singleton].
    rewrite list_elem_of_singleton. discriminate. }
  exists items. repeat split; try done.
Defined.

(** * Further properties of the code *)

(** ** The two halves of [enqueue] *)

#[global] Instance malformed_dec self obj : Decision (malformed self obj).
Proof. unfold malformed. destruct obj; apply _. Defined.

Lemma logger_info_eq logger msg w :
  logger_info logger msg w =
  if isinstance_Logger logger then (Ok tt, logged msg w)
  else (Raise (AttributeError "info"), w).
Proof. by destruct logger. Qed.

Lemma producer_send_eq kafka_send producer w :
  producer_send kafka_send producer w =
  if isinstance_KafkaProducer producer
  then (Ok (fun m w => (kafka_send m, touched (Send m) w)), w)
  else (Raise (AttributeError "send"), w).
Proof. by destruct producer. Qed.

Section Halves.

Variable py_call : PyVal -> PyVal -> Outcome PyVal.
Variable py_str : PyVal -> string.
Variable kafka_send : Message -> Outcome unit.

(** A malformed input ends the run in the first half. *)
Lemma enqueue_malformed_refused self obj args kwargs w :
  malformed self obj ->
  refused (EnqueueSpec_enqueue py_call py_str kafka_send self obj args kwargs w)
          w.
Proof.
  intros Hbad. unfold EnqueueSpec_enqueue.
  eapply refused_bind_Ok; [reflexivity|]. apply refused_bind.
  destruct obj; try discriminate Hbad;
    try (by apply refused_assert_false);
    try (unfold malformed in Hbad; rewrite Hbad;
         by apply refused_assert_false).
  unfold malformed in Hbad.
  destruct (is_None (Job.id _)) eqn:Hid;
    (eapply refused_bind_Ok; [reflexivity|]);
    repeat check_next; exfalso; simpl in Hbad;
    destruct Hbad as [?|[?|[?|[?|[?|[?|?]]]]]]; congruence.
Qed.

(** A well-formed input passes the first half, which builds the job and
    leaves the rest to the second. *)
Lemma enqueue_checked self obj args kwargs w :
  ~ malformed self obj ->
  EnqueueSpec_enqueue py_call py_str kafka_send self obj args kwargs w =
  hand_over py_call py_str kafka_send self
            (normalized self obj args kwargs w) (stamped obj w).
Proof.
  intros Hgood. unfold EnqueueSpec_enqueue.
  erewrite bind_run by reflexivity.
  destruct (isinstance_Job obj) eqn:Hobj.
  - destruct obj; try discriminate Hobj. unfold malformed in Hgood.
    unfold normalized, stamped.
    destruct (is_None (Job.id j)) eqn:Hnone; simpl in Hgood.
    all: etrans;
      [eapply bind_run; erewrite bind_run by reflexivity;
       repeat (erewrite bind_run;
               [|apply assert_run;
                 match goal with
                 | |- ?c = true =>
                     first [reflexivity
                           |destruct c eqn:?; [done|exfalso; tauto]]
                 end]);
       reflexivity
      |reflexivity].
  - assert (callable obj = true) as Hcallable.
    { destruct (callable obj) eqn:E; [done|]. exfalso. apply Hgood.
      by destruct obj. }
    destruct obj; try discriminate Hobj.
    all: etrans;
      [eapply bind_run;
       erewrite bind_run by (apply assert_run; exact Hcallable);
       by erewrite bind_run by reflexivity
      |reflexivity].
Qed.

(** The second half, when it returns. *)
Lemma hand_over_Ok self job w0 r w' :
  hand_over py_call py_str kafka_send self job w0 = (Ok r, w') ->
  r = job /\
  exists value wire_key,
    py_call (EnqueueSpec._serializer self) (PJob job) = Ok value /\
    (if py_truthy (Job.key job)
     then py_call (EnqueueSpec._serializer self) (Job.key job) = Ok wire_key
     else wire_key = PNone) /\
    let m := mkMessage (EnqueueSpec._topic self) value wire_key
                       (Job.partition job) (Job.timestamp job) in
    kafka_send m = Ok tt /\
    w' = touched (Send m) (logged (enqueueing py_str job) w0).
Proof.
  intros H. unfold hand_over in H. inv_run H.
  all: inv_send.
  all: split; [done|].
  all: eexists _, _; repeat split; eauto.
Qed.

End Halves.

Lemma stamped_transport obj w : transport (stamped obj w) = transport w.
Proof. unfold stamped. destruct obj; try done. by destruct (is_None _). Qed.

Lemma stamped_log obj w : log (stamped obj w) = log w.
Proof. unfold stamped. destruct obj; try done. by destruct (is_None _). Qed.

Lemma stamped_clock_reads obj w :
  clock_reads (stamped obj w) = S (clock_reads w).
Proof. unfold stamped. destruct obj; try done. by destruct (is_None _). Qed.

Lemma stamped_sources obj w :
  clock (stamped obj w) = clock w /\ entropy (stamped obj w) = entropy w.
Proof. unfold stamped. destruct obj; try done. by destruct (is_None _). Qed.

Lemma stamped_entropy_draws obj w :
  entropy_draws (stamped obj w) =
  match obj with
  | PJob j => if is_None (Job.id j) then S (entropy_draws w)
              else entropy_draws w
  | _ => S (entropy_draws w)
  end.
Proof. unfold stamped. destruct obj; try done. by destruct (is_None _). Qed.

Section Effects.

Variable py_call : PyVal -> PyVal -> Outcome PyVal.
Variable py_str : PyVal -> string.
Variable kafka_send : Message -> Outcome unit.

(** A run that returns has passed the checks. *)
Lemma enqueue_Ok_checked self obj args kwargs w r w' :
  EnqueueSpec_enqueue py_call py_str kafka_send self obj args kwargs w
    = (Ok r, w') ->
  hand_over py_call py_str kafka_send self
            (normalized self obj args kwargs w) (stamped obj w) = (Ok r, w').
Proof.
  intros H. destruct (decide (malformed self obj)) as [Hbad|Hgood].
  - apply (enqueue_malformed_refused py_call py_str kafka_send _ _ args kwargs w)
      in Hbad as (msg & Hmsg & _).
    rewrite H in Hmsg. discriminate.
  - by rewrite enqueue_checked in H.
Qed.

(** X1: a run of [enqueue] that returns has read the clock once, drawn from
    the random source once when it made the id and not at all when the Job
    brought one, written one log record, which names the job returned, and
    called [send] once, with the partition and the timestamp of that job;
    the job is the one built from the input in the world the call started
    in. *)
Theorem enqueue_effects self obj args kwargs w r w' :
  EnqueueSpec_enqueue py_call py_str kafka_send self obj args kwargs w
    = (Ok r, w') ->
  r = normalized self obj args kwargs w /\
  clock_reads w' = S (clock_reads w) /\
  entropy_draws w' =
    match obj with
    | PJob j => if is_None (Job.id j) then S (entropy_draws w)
                else entropy_draws w
    | _ => S (entropy_draws w)
    end /\
  clock w' = clock w /\ entropy w' = entropy w /\
  log w' = enqueueing py_str r :: log w /\
  exists m,
    transport w' = Send m :: transport w /\
    msg_partition m = Job.partition r /\
    msg_timestamp_ms m = Job.timestamp r /\
    kafka_send m = Ok tt.
Proof.
  intros H. apply enqueue_Ok_checked in H.
  apply hand_over_Ok in H as (-> & value & wire_key & _ & _ & Hsend & ->).
  simpl. rewrite stamped_clock_reads, stamped_entropy_draws, stamped_log,
    stamped_transport.
  destruct (stamped_sources obj w) as [-> ->].
  repeat split; try done. by eexists.
Qed.

(** X2: when the serializer raises, on the job or, the job serialized, on
    a key that is truthy, [enqueue] ends with that very exception after the
    log record and before any call of [send]. *)
Theorem enqueue_serializer_error self obj args kwargs w e :
  ~ malformed self obj ->
  isinstance_Logger (EnqueueSpec._logger self) = true ->
  isinstance_KafkaProducer (EnqueueSpec._producer self) = true ->
  callable (EnqueueSpec._serializer self) = true ->
  let job := normalized self obj args kwargs w in
  py_call (EnqueueSpec._serializer self) (PJob job) = Raise e \/
  (exists value,
     py_call (EnqueueSpec._serializer self) (PJob job) = Ok value /\
     py_truthy (Job.key job) = true /\
     py_call (EnqueueSpec._serializer self) (Job.key job) = Raise e) ->
  exists w1,
    EnqueueSpec_enqueue py_call py_str kafka_send self obj args kwargs w
      = (Raise e, w1) /\
    transport w1 = transport w /\
    log w1 = enqueueing py_str job :: log w.
Proof.
  intros Hgood Hlogger Hproducer Hser job Hraise.
  rewrite enqueue_checked by done. fold job.
  unfold hand_over, mbind, M_bind, call, lift.
  rewrite logger_info_eq, Hlogger, producer_send_eq, Hproducer, Hser.
  destruct Hraise as [Hjob|(value & Hjob & Hkey & Hraise)]; rewrite Hjob.
  - eexists. split; [reflexivity|]. simpl.
    by rewrite stamped_transport, stamped_log.
  - rewrite Hkey, Hraise.
    eexists. split; [reflexivity|]. simpl.
    by rewrite stamped_transport, stamped_log.
Qed.

(** X3: when [send] raises, [enqueue] ends with that very exception; the
    call of [send] was made, once, with the serialized job. *)
Theorem enqueue_transport_error self obj args kwargs w value wire_key e :
  ~ malformed self obj ->
  isinstance_Logger (EnqueueSpec._logger self) = true ->
  isinstance_KafkaProducer (EnqueueSpec._producer self) = true ->
  callable (EnqueueSpec._serializer self) = true ->
  let job := normalized self obj args kwargs w in
  let m := mkMessage (EnqueueSpec._topic self) value wire_key
                     (Job.partition job) (Job.timestamp job) in
  py_call (EnqueueSpec._serializer self) (PJob job) = Ok value ->
  (if py_truthy (Job.key job)
   then py_call (EnqueueSpec._serializer self) (Job.key job) = Ok wire_key
   else wire_key = PNone) ->
  kafka_send m = Raise e ->
  exists w1,
    EnqueueSpec_enqueue py_call py_str kafka_send self obj args kwargs w
      = (Raise e, w1) /\
    transport w1 = Send m :: transport w.
Proof.
  intros Hgood Hlogger Hproducer Hser job m Hvalue Hkey Hsend.
  rewrite enqueue_checked by done. fold job.
  unfold hand_over, mbind, M_bind, call, lift.
  rewrite logger_info_eq, Hlogger, producer_send_eq, Hproducer, Hser, Hvalue.
  destruct (py_truthy (Job.key job)).
  - rewrite Hkey. fold m. rewrite Hsend.
    eexists. split; [reflexivity|]. simpl. by rewrite stamped_transport.
  - subst m. rewrite Hkey in Hsend |- *. simpl. rewrite Hsend.
    eexists. split; [reflexivity|]. simpl. by rewrite stamped_transport.
Qed.

(** X4: whatever the input, the spec and the collaborators, and however
    the run ends, one call of [enqueue] calls [send] at most once and uses
    the producer for nothing else. *)
Theorem enqueue_sends_at_most_once self obj args kwargs w :
  sent_at_most_once
    (EnqueueSpec_enqueue py_call py_str kafka_send self obj args kwargs w) w.
Proof.
  destruct (decide (malformed self obj)) as [Hbad|Hgood].
  - apply (enqueue_malformed_refused py_call py_str kafka_send _ _ args kwargs w)
      in Hbad as (msg & _ & Hw).
    by left.
  - rewrite enqueue_checked by done.
    unfold sent_at_most_once, hand_over, mbind, M_bind, call, lift.
    rewrite logger_info_eq.
    destruct (isinstance_Logger _); simpl;
      [|left; apply stamped_transport].
    rewrite producer_send_eq.
    destruct (isinstance_KafkaProducer _); simpl;
      [|left; apply stamped_transport].
    destruct (callable _); simpl; [|left; apply stamped_transport].
    destruct (py_call _ (PJob _)); simpl; [|left; apply stamped_transport].
    destruct (py_truthy _); simpl.
    + destruct (py_call _ _); simpl; [|left; apply stamped_transport].
      destruct (kafka_send _); simpl; right; eexists;
        by rewrite stamped_transport.
    + destruct (kafka_send _); simpl; right; eexists;
        by rewrite stamped_transport.
Qed.

End Effects.

(** ** Queues and the specs they hand out *)

Lemma py_or_callable serializer :
  is_none_or_func serializer = true ->
  callable (py_or serializer dill_dumps) = true.
Proof.
  unfold py_or. destruct (py_truthy serializer) eqn:Ht; [|done].
  by destruct serializer.
Qed.

Lemma py_or_Logger logger :
  is_none_or_logger logger = true ->
  isinstance_Logger (py_or logger (getLogger "kq.queue")) = true.
Proof. by destruct logger. Qed.

(** A number below zero is truthy. *)
Lemma negative_truthy timeout :
  py_ge_zero timeout = Ok false -> py_truthy timeout = true.
Proof.
  destruct timeout as [| |n|x| | | | | | | | | | |]; try discriminate.
  - intros [= Hn]. simpl. apply Z.leb_gt in Hn.
    destruct (Z.eqb_spec n 0); [lia | done].
  - by destruct x as [[]|[]| |[]].
Qed.

(** X5: [Queue.__init__] returns exactly when its arguments pass the six
    checks; it then has used the producer once, to read
    [config['bootstrap_servers']], and holds the topic, the producer and the
    timeout as given, [dill.dumps] for an absent serializer, the logger
    ['kq.queue'] for an absent logger, and a default spec without key or
    partition. Otherwise it stops on a failed assertion with the producer
    untouched. *)
Theorem Queue_init_cases topic producer serializer timeout logger w :
  if Queue_args_ok topic producer serializer timeout logger
  then exists hosts,
    producer = PProducer hosts /\
    Queue_init topic producer serializer timeout logger w =
      (Ok (Queue.mk topic hosts producer (py_or serializer dill_dumps)
             timeout (py_or logger (getLogger "kq.queue"))
             (EnqueueSpec.mk topic producer (py_or serializer dill_dumps)
                (py_or logger (getLogger "kq.queue")) timeout PNone PNone)),
       touched (ConfigRead "bootstrap_servers") w)
  else refused (Queue_init topic producer serializer timeout logger w) w.
Proof.
  destruct (Queue_args_ok _ _ _ _ _) eqn:Hok; unfold Queue_args_ok in Hok.
  - repeat (apply andb_prop in Hok as [Hok ?]).
    destruct producer; try discriminate.
    destruct (py_ge_zero timeout) as [[]|] eqn:Hge; try discriminate.
    eexists. split; [reflexivity|].
    unfold Queue_init, EnqueueSpec_init.
    repeat (erewrite bind_run by (by apply assert_run)).
    erewrite bind_run by (by rewrite Hge).
    repeat (erewrite bind_run by (by apply assert_run)).
    erewrite bind_run by reflexivity.
    by rewrite H1.
  - unfold Queue_init. do 4 check_next.
    destruct (py_ge_zero timeout) as [nonneg|e] eqn:Hge.
    2: { destruct timeout; discriminate. }
    eapply refused_bind_Ok; [reflexivity|]. do 2 check_next.
    exfalso. simpl in Hok. discriminate.
Qed.

(** X6: what can be read off a queue that was built: the topic given, a
    string; the producer given, and its bootstrap servers as hosts; a
    serializer that is callable, the one given when that is truthy and
    [dill.dumps] when none was given; the timeout given, a number that is
    not below zero; and the text of the queue shows the hosts and the
    topic. *)
Theorem Queue_init_invariants (py_str : PyVal -> string)
    topic producer serializer timeout logger w q w' :
  Queue_init topic producer serializer timeout logger w = (Ok q, w') ->
  Queue_topic q = topic /\ is_str (Queue_topic q) = true /\
  Queue_producer q = producer /\ producer = PProducer (Queue_hosts q) /\
  callable (Queue_serializer q) = true /\
  (py_truthy serializer = true -> Queue_serializer q = serializer) /\
  (serializer = PNone -> Queue_serializer q = dill_dumps) /\
  Queue_timeout q = timeout /\ is_number (Queue_timeout q) = true /\
  py_ge_zero (Queue_timeout q) = Ok true /\
  Queue_repr py_str q =
    "Queue(hosts=" ++ py_str (Queue_hosts q) ++ ", topic=" ++ py_str topic
    ++ ")" /\
  transport w' = ConfigRead "bootstrap_servers" :: transport w.
Proof.
  intros H.
  apply Queue_init_Ok in H
    as (Htopic & Hser & Hnum & Hge & Hlog & hosts & -> & -> & ->).
  unfold Queue_topic, Queue_producer, Queue_hosts, Queue_serializer,
    Queue_timeout, Queue_repr. simpl.
  repeat split; try done.
  - by apply py_or_callable.
  - unfold py_or. by intros ->.
  - by intros ->.
Qed.

(** The shape of the specs of a queue. *)
Lemma spec_of_shape topic producer serializer timeout logger w q w' self :
  Queue_init topic producer serializer timeout logger w = (Ok q, w') ->
  spec_of q self ->
  well_formed_spec self.
Proof.
  intros Hq Hself.
  apply Queue_init_Ok in Hq
    as (Htopic & Hser & Hnum & Hge & Hlog & hosts & -> & -> & ->).
  apply py_or_callable in Hser. apply py_or_Logger in Hlog.
  destruct Hself as [->|(t & k & p & wa & wb & Hu)]; [by repeat split|].
  apply EnqueueSpec_init_Ok in Hu as (Ht & Hk & Hp & -> & _).
  by repeat split.
Qed.

(** X7: every spec a queue hands out, the default one or one from [using],
    is well formed: its topic is a string, its producer a KafkaProducer, its
    serializer callable, its logger a Logger, its timeout a number, its key
    absent or bytes and its partition absent or an integer. *)
Theorem spec_of_well_formed topic producer serializer timeout logger w q w' self :
  Queue_init topic producer serializer timeout logger w = (Ok q, w') ->
  spec_of q self ->
  well_formed_spec self.
Proof. apply spec_of_shape. Qed.

(** X8: on a constructed queue, [using()] with no key, no partition and a
    timeout that is absent, or falsy in any other way, returns a spec equal
    to the default spec of the queue, and leaves the world as it was. *)
Theorem using_nothing_is_default_spec
    topic producer serializer timeout logger w0 q w1 t w :
  Queue_init topic producer serializer timeout logger w0 = (Ok q, w1) ->
  py_truthy t = false ->
  Queue_using q t PNone PNone w = (Ok (Queue._default_enqueue_spec q), w).
Proof.
  intros Hq Ht.
  apply Queue_init_Ok in Hq
    as (Htopic & Hser & Hnum & Hge & Hlog & hosts & -> & -> & ->).
  rewrite Queue_using_falsy_timeout by done.
  unfold EnqueueSpec_init. simpl.
  by repeat (erewrite bind_run by (by apply assert_run)).
Qed.

(** X9: a timeout below zero, which [Queue.__init__] refuses, is taken by
    [using] as it is. *)
Theorem using_takes_negative_timeout q t key partition w :
  is_number t = true -> py_ge_zero t = Ok false ->
  is_none_or_bytes key = true -> is_none_or_int partition = true ->
  Queue_using q t key partition w =
    (Ok (EnqueueSpec.mk (Queue._topic q) (Queue._producer q)
           (Queue._serializer q) (Queue._logger q) t key partition), w) /\
  forall topic producer serializer logger w0,
    refused (Queue_init topic producer serializer t logger w0) w0.
Proof.
  intros Hnum Hneg Hkey Hpart. split.
  - unfold Queue_using, py_or, EnqueueSpec_init.
    rewrite (negative_truthy _ Hneg).
    by repeat (erewrite bind_run by (by apply assert_run)).
  - intros. unfold Queue_init. do 4 check_next.
    eapply refused_bind_Ok; [by rewrite Hneg|].
    by apply refused_assert_false.
Qed.

(** X10: [using] returns exactly when the timeout it binds,
    [timeout or self._timeout], is a number, the key is absent or bytes and
    the partition absent or an integer, and stops on a failed assertion
    otherwise; either way it leaves the world, and with it the producer, as
    it was. *)
Theorem Queue_using_cases q timeout key partition w :
  (if is_number (py_or timeout (Queue._timeout q)) && is_none_or_bytes key
      && is_none_or_int partition
   then Queue_using q timeout key partition w =
          (Ok (EnqueueSpec.mk (Queue._topic q) (Queue._producer q)
                 (Queue._serializer q) (Queue._logger q)
                 (py_or timeout (Queue._timeout q)) key partition), w)
   else refused (Queue_using q timeout key partition w) w) /\
  (Queue_using q timeout key partition w).2 = w.
Proof.
  unfold Queue_using, EnqueueSpec_init, refused.
  destruct (is_number _); [|by split; [exists "timeout must be an int or float"|]].
  destruct (is_none_or_bytes _); [|by split; [exists "key must be a bytes"|]].
  destruct (is_none_or_int _); [|by split; [exists "partition must be an int"|]].
  done.
Qed.

Lemma unless_None_set dflt x : is_None x = false -> unless_None dflt x = x.
Proof. unfold unless_None. by intros ->. Qed.

Lemma unless_None_again dflt x :
  unless_None dflt (unless_None dflt x) = unless_None dflt x.
Proof.
  unfold unless_None. destruct (is_None x) eqn:E; [|by rewrite E].
  by destruct (is_None dflt).
Qed.

Lemma unless_None_same dflt : unless_None dflt dflt = dflt.
Proof. unfold unless_None. by destruct (is_None dflt). Qed.

Section Composition.

Variable py_call : PyVal -> PyVal -> Outcome PyVal.
Variable py_str : PyVal -> string.
Variable kafka_send : Message -> Outcome unit.

(** X11: a job returned through a spec of a queue is well formed in every
    field, also on the raw-callable path, where timeout, key and partition
    are not checked again: its id, topic are strings, its timestamp an
    integer, its func callable, its args a list or tuple, its kwargs a dict,
    its timeout a number, its key absent or bytes and its partition absent
    or an integer. *)
Theorem enqueue_returns_well_formed_job
    topic producer serializer timeout logger w0 q w1
    self obj args kwargs w r w' :
  Queue_init topic producer serializer timeout logger w0 = (Ok q, w1) ->
  spec_of q self ->
  EnqueueSpec_enqueue py_call py_str kafka_send self obj args kwargs w
    = (Ok r, w') ->
  well_formed_job r.
Proof.
  intros Hq Hself H.
  destruct (spec_of_shape _ _ _ _ _ _ _ _ _ Hq Hself)
    as (Htopic & _ & _ & _ & Htimeout & Hkey & Hpart).
  pose proof (enqueue_Ok _ _ _ _ _ _ _ _ _ _ H)
    as (Hts & Htop & Hid & Hfunc & Hargs & Hkwargs & _).
  unfold well_formed_job. rewrite Hts, Htop.
  repeat split; try done.
  all: destruct (isinstance_Job obj) eqn:Hobj;
    [destruct obj; try discriminate Hobj;
     by apply enqueue_job_Ok in H as (_ & (_ & _ & _ & _ & ? & ? & ?) & _)
    |by apply enqueue_call_Ok in H as (_ & -> & _)].
Qed.

(** X12: a returned job that is enqueued again through the same spec comes
    back the same but for its timestamp, which is the time of the second
    call; no new id is drawn. *)
Theorem enqueue_again_keeps_job self obj args kwargs w r w1 args' kwargs' w2 r2 w3 :
  EnqueueSpec_enqueue py_call py_str kafka_send self obj args kwargs w
    = (Ok r, w1) ->
  EnqueueSpec_enqueue py_call py_str kafka_send self (PJob r) args' kwargs' w2
    = (Ok r2, w3) ->
  r2 = Job.mk (Job.id r) (PInt (clock w2 (clock_reads w2))) (Job.topic r)
              (Job.func r) (Job.args r) (Job.kwargs r) (Job.timeout r)
              (Job.key r) (Job.partition r) /\
  entropy_draws w3 = entropy_draws w2.
Proof.
  intros H1 H2.
  pose proof (enqueue_Ok _ _ _ _ _ _ _ _ _ _ H1)
    as (_ & Htop & Hid & _ & Hargs & Hkwargs & _).
  apply enqueue_job_Ok in H2 as (-> & _ & Hdraw & _).
  assert (is_None (Job.id r) = false) as Hnone by by destruct (Job.id r).
  rewrite Hnone in Hdraw |- *. split; [|done].
  rewrite Htop.
  rewrite (unless_None_set _ (Job.args r)) by by destruct (Job.args r).
  rewrite (unless_None_set _ (Job.kwargs r)) by by destruct (Job.kwargs r).
  destruct (isinstance_Job obj) eqn:Hobj.
  - destruct obj; try discriminate Hobj.
    apply enqueue_job_Ok in H1 as (-> & _). simpl.
    by rewrite !unless_None_again.
  - apply enqueue_call_Ok in H1 as (_ & -> & _); [|done]. simpl.
    by rewrite !unless_None_same.
Qed.

(** X13: through [using(timeout, key, partition)] a raw callable gets the
    timeout [timeout or self._timeout] of the queue, the key and the
    partition of the call of [using]; a Job record gets them only where its
    own field is absent; the topic is the topic of the queue. And the job is
    returned, where the queue was constructed, the input is well formed,
    the serializer returns and the transport takes the message. *)
Theorem using_then_enqueue q t k p w0 self w1 obj args kwargs w :
  Queue_using q t k p w0 = (Ok self, w1) ->
  (forall r w',
     EnqueueSpec_enqueue py_call py_str kafka_send self obj args kwargs w
       = (Ok r, w') ->
     Job.topic r = Queue._topic q /\
     (isinstance_Job obj = false ->
      Job.timeout r = py_or t (Queue._timeout q) /\
      Job.key r = k /\ Job.partition r = p) /\
     (forall j, obj = PJob j ->
      takes_precedence (Job.timeout j) (py_or t (Queue._timeout q))
                       (Job.timeout r) /\
      takes_precedence (Job.key j) k (Job.key r) /\
      takes_precedence (Job.partition j) p (Job.partition r))) /\
  (forall topic producer serializer timeout logger wa wb,
     Queue_init topic producer serializer timeout logger wa = (Ok q, wb) ->
     ~ malformed self obj ->
     (forall x, exists v, py_call (Queue._serializer q) x = Ok v) ->
     (forall m, kafka_send m = Ok tt) ->
     exists r w',
       EnqueueSpec_enqueue py_call py_str kafka_send self obj args kwargs w
         = (Ok r, w')).
Proof.
  intros Hu. split.
  - intros r w' H. apply Queue_using_Ok in Hu as [-> _].
    split; [by apply enqueue_Ok in H as (_ & -> & _)|]. split.
    + intros Hobj. by apply enqueue_call_Ok in H as (_ & -> & _).
    + intros j ->. apply enqueue_job_Ok in H as (-> & _). simpl.
      repeat split; apply unless_None_precedence.
  - intros * Hq Hgood Hcall Hsend.
    assert (spec_of q self) as Hself by (right; by eexists _, _, _, _, _).
    destruct (spec_of_shape _ _ _ _ _ _ _ _ _ Hq Hself)
      as (_ & Hproducer & Hser & Hlogger & _).
    apply Queue_using_Ok in Hu as [-> _].
    by apply enqueue_returns.
Qed.

(** X14: a raw callable enqueued on a queue, with no keyword named [obj],
    gives a job with that callable, the arguments of the call, the timeout
    of the queue, no key and no partition, on the topic of the queue; the
    message is sent on that topic without key and without partition; and
    the job is returned where the callable is one, the serializer returns
    and the transport takes the message. With a keyword named [obj] the
    call raises a TypeError and nothing is done. *)
Theorem Queue_enqueue_call
    topic producer serializer timeout logger w0 q w1 fn args kwargs w :
  Queue_init topic producer serializer timeout logger w0 = (Ok q, w1) ->
  isinstance_Job fn = false ->
  (has_keyword "obj" kwargs = true ->
   Queue_enqueue py_call py_str kafka_send q fn args kwargs w =
     (Raise (TypeError "enqueue() got multiple values for argument 'obj'"),
      w)) /\
  (forall r w',
     Queue_enqueue py_call py_str kafka_send q fn args kwargs w = (Ok r, w') ->
     has_keyword "obj" kwargs = false /\
     Job.topic r = topic /\ Job.func r = fn /\ Job.args r = PTuple args /\
     Job.kwargs r = kwargs_dict kwargs /\ Job.timeout r = timeout /\
     Job.key r = PNone /\ Job.partition r = PNone /\
     exists m,
       transport w' = Send m :: transport w /\
       msg_topic m = topic /\ msg_key m = PNone /\ msg_partition m = PNone) /\
  (has_keyword "obj" kwargs = false ->
   callable fn = true ->
   (forall x, exists v, py_call (Queue._serializer q) x = Ok v) ->
   (forall m, kafka_send m = Ok tt) ->
   exists r w',
     Queue_enqueue py_call py_str kafka_send q fn args kwargs w = (Ok r, w')).
Proof.
  intros Hq Hfn.
  pose proof (spec_of_shape _ _ _ _ _ _ _ _ (Queue._default_enqueue_spec q)
                Hq (or_introl eq_refl))
    as (_ & Hproducer & Hser & Hlogger & _).
  apply Queue_init_Ok in Hq as (_ & _ & _ & _ & _ & hosts & -> & -> & _).
  unfold Queue_enqueue. destruct (has_keyword "obj" kwargs) eqn:Hobj.
  { split; [done|]. split; [intros r w' H; discriminate H|]. done. }
  split; [done|]. split.
  - intros r w' H. simpl in H.
    apply enqueue_call_Ok in H as (_ & -> & _ & Hd); [|done].
    destruct Hd as (value & wire_key & _ & Hkey & _ & Hsent). simpl in *.
    subst wire_key. repeat split; try done. by eexists.
  - intros _ Hfunc Hcall Hsend. apply enqueue_returns; try done.
    intros Hbad.
    destruct fn; try discriminate Hfn; simpl in Hbad, Hfunc; congruence.
Qed.

End Composition.

(** ** The further properties at work *)

Lemma enqueue_effects_witness :
  exists r w',
    EnqueueSpec_enqueue demo_call demo_str demo_send demo_spec
      (PJob demo_job_stale) [] [] demo_world = (Ok r, w') /\
    clock_reads w' = 1%nat /\ entropy_draws w' = 0%nat /\
    log w' = ["Enqueueing <job> ..."] /\
    exists m, transport w' = [Send m] /\ msg_partition m = PInt 3.
Proof.
  eexists _, _. split; [vm_compute; reflexivity|].
  edestruct (enqueue_effects demo_call demo_str demo_send demo_spec
               (PJob demo_job_stale) [] [] demo_world)
    as (_ & Hclock & Hdraws & _ & _ & Hlog & m & Hsent & Hpart & _);
    [vm_compute; reflexivity|].
  split; [exact Hclock|]. split; [exact Hdraws|]. split; [exact Hlog|].
  exists m. split; [exact Hsent | exact Hpart].
Defined.

Lemma enqueue_serializer_error_witness :
  exists w1,
    EnqueueSpec_enqueue demo_call_fail demo_str demo_send demo_spec
      demo_func [] [] demo_world = (Raise (Raised "PicklingError"), w1) /\
    transport w1 = [] /\ log w1 = ["Enqueueing <job> ..."].
Proof.
  apply (enqueue_serializer_error demo_call_fail demo_str demo_send demo_spec
           demo_func [] [] demo_world (Raised "PicklingError")).
  - intros Hbad. discriminate Hbad.
  - reflexivity.
  - reflexivity.
  - reflexivity.
  - left. reflexivity.
Defined.

Lemma enqueue_transport_error_witness :
  exists w1,
    EnqueueSpec_enqueue demo_call demo_str demo_send_fail demo_spec
      demo_func [] [] demo_world = (Raise (Raised "KafkaTimeoutError"), w1) /\
    exists m, transport w1 = [Send m].
Proof.
  edestruct (enqueue_transport_error demo_call demo_str demo_send_fail
               demo_spec demo_func [] [] demo_world)
    as (w1 & Hrun & Hsent).
  - intros Hbad. discriminate Hbad.
  - reflexivity.
  - reflexivity.
  - reflexivity.
  - reflexivity.
  - vm_compute. reflexivity.
  - reflexivity.
  - exists w1. split; [exact Hrun|]. eexists. exact Hsent.
Defined.

Lemma Queue_init_invariants_witness :
  Queue_topic demo_queue = PStr "t" /\
  Queue_hosts demo_queue = PStr "127.0.0.1:9092" /\
  Queue_serializer demo_queue = dill_dumps /\
  Queue_repr demo_str demo_queue = "Queue(hosts=<job>, topic=<job>)".
Proof.
  edestruct (Queue_init_invariants demo_str (PStr "t") demo_producer PNone
               (PInt 10) PNone demo_world demo_queue)
    as (Htopic & _ & _ & Hhosts & _ & _ & Hser & _ & _ & _ & Hrepr & _);
    [exact demo_queue_init|].
  split; [exact Htopic|]. split; [reflexivity|].
  split; [by apply Hser | exact Hrepr].
Defined.

Lemma spec_of_well_formed_witness :
  well_formed_spec (Queue._default_enqueue_spec demo_queue).
Proof.
  apply (spec_of_well_formed (PStr "t") demo_producer PNone (PInt 10) PNone
           demo_world demo_queue
           (touched (ConfigRead "bootstrap_servers") demo_world)).
  - reflexivity.
  - left. reflexivity.
Defined.

Lemma using_nothing_is_default_spec_witness :
  Queue_using demo_queue PNone PNone PNone demo_world =
    (Ok (Queue._default_enqueue_spec demo_queue), demo_world) /\
  Queue_using demo_queue (PInt 0) PNone PNone demo_world =
    (Ok (Queue._default_enqueue_spec demo_queue), demo_world).
Proof.
  split.
  - apply (using_nothing_is_default_spec
             (PStr "t") demo_producer PNone (PInt 10) PNone demo_world
             demo_queue (touched (ConfigRead "bootstrap_servers") demo_world)
             PNone demo_world).
    + reflexivity.
    + reflexivity.
  - apply (using_nothing_is_default_spec
             (PStr "t") demo_producer PNone (PInt 10) PNone demo_world
             demo_queue (touched (ConfigRead "bootstrap_servers") demo_world)
             (PInt 0) demo_world).
    + reflexivity.
    + reflexivity.
Defined.

Lemma using_takes_negative_timeout_witness :
  (exists self,
     Queue_using demo_queue (PInt (-5)) PNone PNone demo_world
       = (Ok self, demo_world) /\
     EnqueueSpec._timeout self = PInt (-5)) /\
  refused (Queue_init (PStr "t") demo_producer PNone (PInt (-5)) PNone
                      demo_world) demo_world.
Proof.
  destruct (using_takes_negative_timeout demo_queue (PInt (-5)) PNone PNone
              demo_world) as (Husing & Hinit); try reflexivity.
  split; [|apply Hinit]. eexists. split; [exact Husing | reflexivity].
Defined.

Lemma enqueue_returns_well_formed_job_witness :
  exists r w',
    Queue_enqueue demo_call demo_str demo_send demo_queue demo_func
      [PInt 1] [("x", PInt 2)] demo_world = (Ok r, w') /\
    well_formed_job r.
Proof.
  eexists _, _. split; [vm_compute; reflexivity|].
  eapply (enqueue_returns_well_formed_job demo_call demo_str demo_send
            (PStr "t") demo_producer PNone (PInt 10) PNone demo_world
            demo_queue (touched (ConfigRead "bootstrap_servers") demo_world)
            (Queue._default_enqueue_spec demo_queue) demo_func
            [PInt 1] [("x", PInt 2)] demo_world).
  - reflexivity.
  - left. reflexivity.
  - vm_compute. reflexivity.
Defined.

Lemma enqueue_again_keeps_job_witness :
  exists r w1 r2 w3,
    EnqueueSpec_enqueue demo_call demo_str demo_send demo_spec
      demo_func [PInt 1] [] demo_world = (Ok r, w1) /\
    EnqueueSpec_enqueue demo_call demo_str demo_send demo_spec
      (PJob r) [] [] w1 = (Ok r2, w3) /\
    Job.id r2 = Job.id r /\ Job.args r2 = PTuple [PInt 1] /\
    Job.key r2 = PBytes [Byte.x6b] /\ entropy_draws w3 = entropy_draws w1.
Proof.
  eexists _, _, _, _. split; [vm_compute; reflexivity|].
  split; [vm_compute; reflexivity|].
  lazymatch goal with
  | |- Job.id ?r2 = Job.id ?r /\ _ /\ _ /\
       entropy_draws ?w3 = entropy_draws ?w1 =>
      destruct (enqueue_again_keeps_job demo_call demo_str demo_send demo_spec
                  demo_func [PInt 1] [] demo_world r w1 [] [] w1 r2 w3)
        as (Hsame & Hdraws); [vm_compute; reflexivity..|]
  end.
  split; [by rewrite Hsame|]. split; [by rewrite Hsame|].
  split; [by rewrite Hsame | exact Hdraws].
Defined.

(** On [queue.using(timeout=30, key=b'k', partition=1)], with 10 the
    timeout of the queue: a raw callable gets 30, [b'k'] and 1;
    [Job(func=requests.get, timeout=5)] keeps its 5 and gets [b'k'] and 1;
    [Job(func=requests.get)] gets 30. *)
Lemma using_then_enqueue_witness :
  Queue_using demo_queue (PInt 30) (PBytes [Byte.x6b]) (PInt 1) demo_world
    = (Ok demo_using_spec, demo_world) /\
  (exists r w',
     EnqueueSpec_enqueue demo_call demo_str demo_send demo_using_spec
       demo_func [] [] demo_world = (Ok r, w') /\
     Job.topic r = PStr "t" /\ Job.timeout r = PInt 30 /\
     Job.key r = PBytes [Byte.x6b] /\ Job.partition r = PInt 1) /\
  (exists r w',
     EnqueueSpec_enqueue demo_call demo_str demo_send demo_using_spec
       (PJob demo_job_timeout) [] [] demo_world = (Ok r, w') /\
     Job.timeout r = PInt 5 /\ Job.key r = PBytes [Byte.x6b] /\
     Job.partition r = PInt 1) /\
  (exists r w',
     EnqueueSpec_enqueue demo_call demo_str demo_send demo_using_spec
       (PJob demo_job_plain) [] [] demo_world = (Ok r, w') /\
     Job.timeout r = PInt 30).
Proof.
  assert (Queue_using demo_queue (PInt 30) (PBytes [Byte.x6b]) (PInt 1)
            demo_world = (Ok demo_using_spec, demo_world)) as Hu
    by reflexivity.
  split; [exact Hu|]. split; [|split].
  - destruct (using_then_enqueue demo_call demo_str demo_send demo_queue
                (PInt 30) (PBytes [Byte.x6b]) (PInt 1) demo_world
                demo_using_spec demo_world demo_func [] [] demo_world Hu)
      as [Hfields Hreturns].
    destruct (Hreturns (PStr "t") demo_producer PNone (PInt 10) PNone
                demo_world
                (touched (ConfigRead "bootstrap_servers") demo_world))
      as (r & w' & Hrun); [demo_setting..|].
    exists r, w'. split; [exact Hrun|].
    destruct (Hfields r w' Hrun) as (Htopic & Hraw & _).
    split; [exact Htopic|]. by apply Hraw.
  - destruct (using_then_enqueue demo_call demo_str demo_send demo_queue
                (PInt 30) (PBytes [Byte.x6b]) (PInt 1) demo_world
                demo_using_spec demo_world (PJob demo_job_timeout) [] []
                demo_world Hu)
      as [Hfields Hreturns].
    destruct (Hreturns (PStr "t") demo_producer PNone (PInt 10) PNone
                demo_world
                (touched (ConfigRead "bootstrap_servers") demo_world))
      as (r & w' & Hrun); [demo_setting..|].
    exists r, w'. split; [exact Hrun|].
    destruct (Hfields r w' Hrun) as (_ & _ & Hjob).
    destruct (Hjob demo_job_timeout eq_refl)
      as ((Ht & _) & (_ & Hk) & (_ & Hp)).
    split; [by apply Ht|]. split; [by apply Hk | by apply Hp].
  - destruct (using_then_enqueue demo_call demo_str demo_send demo_queue
                (PInt 30) (PBytes [Byte.x6b]) (PInt 1) demo_world
                demo_using_spec demo_world (PJob demo_job_plain) [] []
                demo_world Hu)
      as [Hfields Hreturns].
    destruct (Hreturns (PStr "t") demo_producer PNone (PInt 10) PNone
                demo_world
                (touched (ConfigRead "bootstrap_servers") demo_world))
      as (r & w' & Hrun); [demo_setting..|].
    exists r, w'. split; [exact Hrun|].
    destruct (Hfields r w' Hrun) as (_ & _ & Hjob).
    destruct (Hjob demo_job_plain eq_refl) as ((_ & Ht) & _).
    by apply Ht.
Defined.

(** [queue.enqueue(requests.get, 1, x=2)] returns the job of that call;
    [queue.enqueue(requests.get, 1, obj=2)] raises. *)
Lemma Queue_enqueue_call_witness :
  (exists r w',
     Queue_enqueue demo_call demo_str demo_send demo_queue demo_func
       [PInt 1] [("x", PInt 2)] demo_world = (Ok r, w') /\
     Job.topic r = PStr "t" /\ Job.func r = demo_func /\
     Job.args r = PTuple [PInt 1] /\
     Job.kwargs r = PDict [(PStr "x", PInt 2)] /\
     Job.timeout r = PInt 10 /\ Job.key r = PNone /\
     Job.partition r = PNone) /\
  Queue_enqueue demo_call demo_str demo_send demo_queue demo_func
    [PInt 1] [("obj", PInt 2)] demo_world =
  (Raise (TypeError "enqueue() got multiple values for argument 'obj'"),
   demo_world).
Proof.
  split.
  - destruct (Queue_enqueue_call demo_call demo_str demo_send
                (PStr "t") demo_producer PNone (PInt 10) PNone demo_world
                demo_queue
                (touched (ConfigRead "bootstrap_servers") demo_world)
                demo_func [PInt 1] [("x", PInt 2)] demo_world)
      as (_ & Hfields & Hreturns); [reflexivity | reflexivity |].
    destruct Hreturns as (r & w' & Hrun); [demo_setting..|].
    exists r, w'. split; [exact Hrun|].
    destruct (Hfields r w' Hrun)
      as (_ & Htopic & Hfunc & Hargs & Hkwargs & Htimeout & Hkey & Hpart & _).
    by repeat split.
  - destruct (Queue_enqueue_call demo_call demo_str demo_send
                (PStr "t") demo_producer PNone (PInt 10) PNone demo_world
                demo_queue
                (touched (ConfigRead "bootstrap_servers") demo_world)
                demo_func [PInt 1] [("obj", PInt 2)] demo_world)
      as (Hraises & _); [reflexivity | reflexivity |].
    by apply Hraises.
Defined.
